(** * Telegram group file scraper: a shallow embedding of [telegram_scraper.py]

    The development follows the source file top to bottom: the Python
    string primitives the scraper relies on, the Telethon objects it reads,
    the methods of [TelegramFileScraper] and finally the [main] driver.
    Text is modelled as [string] (8-bit characters); [str.lower] is the
    ASCII lowering, characters outside [A-Z] are left alone. *)

From Stdlib Require Import String Ascii List ZArith Lia Bool Arith.
From Stdlib Require Import Permutation Sorted DecimalString.
From Stdlib Require DecimalZ.
Import ListNotations.

Open Scope string_scope.

(** ** Python string primitives *)

Module PyStr.

(** [c.lower()] on one character. *)
Definition lower_char (c : ascii) : ascii :=
  let n := nat_of_ascii c in
  if ((65 <=? n) && (n <=? 90))%nat then ascii_of_nat (n + 32) else c.

(** [s.lower()]. *)
Fixpoint lower (s : string) : string :=
  match s with
  | EmptyString => EmptyString
  | String c r => String (lower_char c) (lower r)
  end.

Definition is_upper_char (c : ascii) : bool :=
  let n := nat_of_ascii c in ((65 <=? n) && (n <=? 90))%nat.

(** Does [s] contain one of the letters [A-Z]? *)
Fixpoint has_upper (s : string) : bool :=
  match s with
  | EmptyString => false
  | String c r => is_upper_char c || has_upper r
  end.

(** [s[n:]]. *)
Fixpoint drop (n : nat) (s : string) : string :=
  match n, s with
  | O, _ => s
  | S _, EmptyString => EmptyString
  | S k, String _ r => drop k r
  end.

(** [s[:n]]. *)
Fixpoint take (n : nat) (s : string) : string :=
  match n, s with
  | O, _ => EmptyString
  | S _, EmptyString => EmptyString
  | S k, String c r => String c (take k r)
  end.

(** [s.endswith(suffix)]: the last [len(suffix)] characters of [s] are
    compared with [suffix]. *)
Definition endswith (s suffix : string) : bool :=
  (String.length suffix <=? String.length s)%nat &&
  (drop (String.length s - String.length suffix) s =? suffix).

(** [s[-1:]] as an optional character. *)
Fixpoint last_char (s : string) : option ascii :=
  match s with
  | EmptyString => None
  | String c r =>
      match r with
      | EmptyString => Some c
      | String _ _ => last_char r
      end
  end.

(** [s.startswith(p)]. *)
Definition startswith (s p : string) : bool := String.prefix p s.

(** [s.replace(old, new)] for a non-empty [old]: occurrences are replaced
    from left to right and do not overlap.  [skip] counts the characters of
    the occurrence just replaced that are still to be passed over. *)
Fixpoint replace_from (old new : string) (skip : nat) (s : string) : string :=
  match s with
  | EmptyString => EmptyString
  | String c r =>
      match skip with
      | S k => replace_from old new k r
      | O =>
          if String.prefix old s
          then new ++ replace_from old new (String.length old - 1) r
          else String c (replace_from old new 0 r)
      end
  end.

Definition replace (s old new : string) : string := replace_from old new 0 s.

(** [str(n)] for an integer. *)
Definition str_of_int (n : Z) : string := NilZero.string_of_int (Z.to_int n).

(** [any(f(x) for x in l)]. *)
Definition any {A : Type} (f : A -> bool) (l : list A) : bool := existsb f l.

End PyStr.

(** ** Python values, exceptions and results *)

(** The values an optional text attribute can take: [None] or a [str]. *)
Inductive pyval : Type :=
| PyNone
| PyStr (s : string).

(** Truth value of an expression used as a condition ([if v], [not v]). *)
Definition truthy (v : pyval) : bool :=
  match v with
  | PyNone => false
  | PyStr s => negb (s =? "")
  end.

(** Interpolation of a value in an f-string. *)
Definition py_format (v : pyval) : string :=
  match v with
  | PyNone => "None"
  | PyStr s => s
  end.

Inductive exn : Type :=
| ValueError (msg : string)
| AttributeError (msg : string)
| UnboundLocalError (msg : string)
| OSError (msg : string)
| RPCError (msg : string)
| KeyboardInterrupt
| CancelledError.

(** Is the exception an instance of [Exception]?  [KeyboardInterrupt] and
    [asyncio.CancelledError] derive from [BaseException] only, so an
    [except Exception] clause lets them through. *)
Definition is_Exception (e : exn) : bool :=
  match e with
  | KeyboardInterrupt | CancelledError => false
  | _ => true
  end.

Inductive result (A : Type) : Type :=
| Ok (a : A)
| Raise (e : exn).

Arguments Ok {A} a.
Arguments Raise {A} e.

(** ** The objects handed over by the client library *)

Module Telethon.

(** A sender (user, channel or chat).  An attribute is [None] when the
    object does not have it ([hasattr] is false), [Some PyNone] when it is
    there and holds [None]. *)
Record Sender : Type := {
  first_name : option pyval;
  last_name : option pyval;
  username : option pyval
}.

Inductive DocAttribute : Type :=
| DocumentAttributeFilename (file_name : pyval)
| DocumentAttributeOther.

Record Document : Type := {
  attributes : list DocAttribute;
  name : option pyval;
  size : option Z
}.

Inductive Media : Type :=
| MessageMediaDocument (document : option Document)
| MessageMediaOther.

(** [date] is the time stamp of the message, kept as the text that
    [strftime('%Y-%m-%d %H:%M:%S')] gives for it. *)
Record Message : Type := {
  media : option Media;
  id : Z;
  date : option string;
  sender : option Sender;
  text : option string
}.

Record Entity : Type := {
  title : option pyval
}.

End Telethon.

(** The [group_identifier] argument: a user name or URL, or a numeric id. *)
Inductive GroupId : Type :=
| GroupStr (s : string)
| GroupInt (n : Z).

(** ** Records, configuration and the outside world *)

(** The dictionary [file_info].  [file_size_mb] is a number with two
    decimals and is kept in hundredths of a megabyte. *)
Record FileInfo : Type := {
  filename : string;
  message_id : Z;
  date : string;
  sender : pyval;
  caption : string;
  file_size_mb : Z;
  message_url : string
}.

(** The constants imported from [config]; all three are [None] when the
    import fails. *)
Record Config : Type := {
  API_ID : option Z;
  API_HASH : option string;
  PHONE_NUMBER : option string
}.

(** The parsed command line. *)
Record Args : Type := {
  group : string;
  limit : Z;
  output : string;
  types : option (list string);
  json : bool
}.

(** What has been written to a file. *)
Inductive FileContent : Type :=
| CsvContent (fieldnames : list string) (rows : list FileInfo)
| JsonContent (rows : list FileInfo).

(** The lines printed on the console, one constructor per [print]. *)
Inductive out_event : Type :=
| PrintBanner
| PrintConnecting
| PrintAuthRequired
| PrintAuthorized
| PrintConnected
| PrintScraping (g : GroupId)
| PrintScanning (limit : Z)
| PrintGroup (title : pyval)
| PrintErrorGettingGroup (e : exn)
| PrintFile (count : nat) (filename : string) (size : Z)
| PrintFound (count : nat)
| PrintNoFiles
| PrintExported (path : string)
| PrintSummaryHeader
| PrintTotalFiles (n : nat)
| PrintTotalSize (total : Z)
| PrintByExtension
| PrintExtension (ext : string) (count : nat)
| PrintTopHeader
| PrintTopFile (i : nat) (filename : string) (size : Z)
| PrintSummaryFooter
| PrintDisconnected
| PrintError (e : exn)
| PrintTraceback (e : exn).

(** The requests made to the client library. *)
Inductive client_call : Type :=
| CallConnect
| CallIsUserAuthorized
| CallStart (phone : option string)
| CallGetEntity (g : GroupId)
| CallIterMessages (limit : Z)
| CallDisconnect.

(** How the outside world answers: the outcome of each request to the
    client library and of opening a file for writing.  [iter_messages]
    yields a list of messages and may then fail. *)
Record Env : Type := {
  connect_outcome : option exn;
  is_user_authorized_outcome : result bool;
  start_outcome : option exn;
  get_entity_outcome : GroupId -> result Telethon.Entity;
  iter_messages_outcome :
    Telethon.Entity -> Z -> list Telethon.Message * option exn;
  disconnect_outcome : option exn;
  open_outcome : string -> option exn
}.

(** Observable effects so far: console lines, requests made, files
    written, each in the order it happened. *)
Record World : Type := {
  console : list out_event;
  calls : list client_call;
  written : list (string * FileContent)
}.

(** The scraper object; [self.client] is the one client of [Env]. *)
Record Scraper : Type := {
  files : list FileInfo
}.

(** ** A state and exception monad for the methods *)

Definition M (A : Type) : Type :=
  Scraper * World -> result A * (Scraper * World).

Definition ret {A : Type} (a : A) : M A := fun st => (Ok a, st).

Definition bind {A B : Type} (c : M A) (k : A -> M B) : M B :=
  fun st =>
    match c st with
    | (Ok a, st') => k a st'
    | (Raise e, st') => (Raise e, st')
    end.

Notation "x <- c ;; k" := (bind c (fun x => k))
  (at level 61, c at next level, right associativity).
Notation "c ;;; k" := (bind c (fun _ => k))
  (at level 61, right associativity).

Definition raise {A : Type} (e : exn) : M A := fun st => (Raise e, st).

Definition print (o : out_event) : M unit :=
  fun '(self, w) =>
    (Ok tt, (self, {| console := console w ++ [o];
                      calls := calls w;
                      written := written w |})).

Definition print_all (os : list out_event) : M unit :=
  fun '(self, w) =>
    (Ok tt, (self, {| console := console w ++ os;
                      calls := calls w;
                      written := written w |})).

Definition call (c : client_call) : M unit :=
  fun '(self, w) =>
    (Ok tt, (self, {| console := console w;
                      calls := calls w ++ [c];
                      written := written w |})).

Definition write_file (path : string) (c : FileContent) : M unit :=
  fun '(self, w) =>
    (Ok tt, (self, {| console := console w;
                      calls := calls w;
                      written := written w ++ [(path, c)] |})).

Definition get_files : M (list FileInfo) :=
  fun '(self, w) => (Ok (files self), (self, w)).

(** [self.files.append(r)]. *)
Definition append_file (r : FileInfo) : M unit :=
  fun '(self, w) => (Ok tt, ({| files := files self ++ [r] |}, w)).

Definition outcome (o : option exn) : M unit :=
  match o with
  | None => ret tt
  | Some e => raise e
  end.

Definition answer {A : Type} (r : result A) : M A :=
  match r with
  | Ok a => ret a
  | Raise e => raise e
  end.

(** [try: body  except Exception as e: handler(e)]. *)
Definition try_except {A : Type} (body : M A) (handler : exn -> M A) : M A :=
  fun st =>
    match body st with
    | (Ok a, st') => (Ok a, st')
    | (Raise e, st') =>
        if is_Exception e then handler e st' else (Raise e, st')
    end.

(** Reading an attribute that may be missing. *)
Definition getattr {A : Type} (a : option A) (attr : string) : M A :=
  match a with
  | Some v => ret v
  | None => raise (AttributeError attr)
  end.

(** ** Built-in functions used by the summary *)

(** Insertion of [x] in front of a list already in descending order of
    [key]: [x] passes the elements with a strictly greater key and stops
    at the first one whose key is not greater. *)
Fixpoint insert_desc {A : Type} (key : A -> Z) (x : A) (l : list A) : list A :=
  match l with
  | [] => [x]
  | y :: r => if (key x <? key y)%Z then y :: insert_desc key x r else x :: l
  end.

(** [sorted(l, key=key, reverse=True)]: a stable sort in descending order. *)
Definition sorted_desc {A : Type} (key : A -> Z) (l : list A) : list A :=
  fold_right (insert_desc key) [] l.

(** [s.rfind(c)] for one character, [-1] when [c] does not occur; [i] is
    the index of the first character of [s]. *)
Fixpoint rfind_from (c : ascii) (s : string) (i : Z) : Z :=
  match s with
  | EmptyString => (-1)%Z
  | String a r =>
      let j := rfind_from c r (i + 1)%Z in
      if (0 <=? j)%Z then j else if Ascii.eqb a c then i else (-1)%Z
  end.

Definition rfind (s : string) (c : ascii) : Z := rfind_from c s 0%Z.

(** Is some character of [s] different from [c]? *)
Fixpoint some_char_differs (c : ascii) (s : string) : bool :=
  match s with
  | EmptyString => false
  | String a r => negb (Ascii.eqb a c) || some_char_differs c r
  end.

(** [os.path.splitext(p)[1]] with [/] as the separator: the text from the
    last dot of the last path component on, unless that component has only
    dots before it. *)
Definition splitext_ext (p : string) : string :=
  let sepIndex := rfind p "/"%char in
  let dotIndex := rfind p "."%char in
  if (sepIndex <? dotIndex)%Z then
    let filenameIndex := Z.to_nat (sepIndex + 1) in
    let leading := PyStr.take (Z.to_nat dotIndex - filenameIndex)
                              (PyStr.drop filenameIndex p) in
    if some_char_differs "."%char leading
    then PyStr.drop (Z.to_nat dotIndex) p
    else ""
  else "".

(** [d[k] = d.get(k, 0) + 1] on a dictionary kept in insertion order. *)
Fixpoint dict_incr (k : string) (d : list (string * nat)) : list (string * nat) :=
  match d with
  | [] => [(k, 1)]
  | (k', n) :: r =>
      if (k' =? k)%string then (k', n + 1) :: r else (k', n) :: dict_incr k r
  end.

(** [round(size / (1024 * 1024), 2)] in hundredths, for a size from 0 to
    below 2^53 bytes.  There the quotient is exact in binary floating
    point, and [round] takes the exact value to the nearest hundredth, a
    tie going to the even neighbour. *)
Definition round_mb_hundredths (size : Z) : Z :=
  let q := (size * 100 / 1048576)%Z in
  let r := (size * 100 mod 1048576)%Z in
  if (2 * r <? 1048576)%Z then q
  else if (1048576 <? 2 * r)%Z then (q + 1)%Z
  else if Z.even q then q else (q + 1)%Z.

(** [enumerate(l, i)]. *)
Fixpoint enumerate {A : Type} (i : nat) (l : list A) : list (nat * A) :=
  match l with
  | [] => []
  | x :: r => (i, x) :: enumerate (S i) r
  end.

(** ** The methods of [TelegramFileScraper] *)

(** [__init__]. *)
Definition TelegramFileScraper (cfg : Config) : result Scraper :=
  let no_id := match API_ID cfg with
               | None => true
               | Some n => (n =? 0)%Z
               end in
  let no_hash := match API_HASH cfg with
                 | None => true
                 | Some h => (h =? "")%string
                 end in
  if no_id || no_hash
  then Raise (ValueError "API credentials not configured. Check config.py")
  else Ok {| files := [] |}.

Definition connect (cfg : Config) (env : Env) : M unit :=
  print PrintConnecting ;;;
  call CallConnect ;;;
  outcome (connect_outcome env) ;;;
  call CallIsUserAuthorized ;;;
  authorized <- answer (is_user_authorized_outcome env) ;;
  if negb authorized then
    print PrintAuthRequired ;;;
    call (CallStart (PHONE_NUMBER cfg)) ;;;
    outcome (start_outcome env) ;;;
    print PrintAuthorized
  else
    print PrintConnected.

(** The default of [file_types]. *)
Definition default_file_types : list string :=
  [ ".ex4"; ".ex5"; ".mq4"; ".mq5";
    ".zip"; ".rar"; ".7z";
    ".pdf"; ".doc"; ".docx"; ".txt";
    ".jpg"; ".jpeg"; ".png"; ".gif";
    ".mp4"; ".avi"; ".mkv";
    ".py"; ".js"; ".html" ].

Definition is_target_file (filename : pyval) (file_types : option (list string))
  : bool :=
  match filename with
  | PyNone => false
  | PyStr name =>
      if (name =? "")%string then false
      else
        let file_types := match file_types with
                          | None => default_file_types
                          | Some l => l
                          end in
        let filename_lower := PyStr.lower name in
        PyStr.any (fun ext => PyStr.endswith filename_lower ext) file_types
  end.

Definition _get_sender_name (message : Telethon.Message) : pyval :=
  match Telethon.sender message with
  | None => PyStr "Unknown"
  | Some sender =>
      match Telethon.first_name sender with
      | Some first =>
          match Telethon.last_name sender with
          | Some last =>
              if truthy last
              then PyStr (py_format first ++ " " ++ py_format last)
              else first
          | None => first
          end
      | None =>
          match Telethon.username sender with
          | Some user =>
              if truthy user then PyStr ("@" ++ py_format user)
              else PyStr "Unknown"
          | None => PyStr "Unknown"
          end
      end
  end.

(** The value of [message_url]. *)
Definition make_message_url (group_identifier : GroupId) (message_id : Z)
  : string :=
  match group_identifier with
  | GroupStr g =>
      if negb (PyStr.startswith g "http")
      then "https://t.me/" ++ g ++ "/" ++ PyStr.str_of_int message_id
      else PyStr.str_of_int message_id
  | GroupInt _ => PyStr.str_of_int message_id
  end.

(** The [for attr in doc.attributes] loop: the name carried by the first
    file-name attribute, [None] when there is none. *)
Fixpoint filename_of_attributes (attrs : list Telethon.DocAttribute) : pyval :=
  match attrs with
  | [] => PyNone
  | Telethon.DocumentAttributeFilename file_name :: _ => file_name
  | Telethon.DocumentAttributeOther :: r => filename_of_attributes r
  end.

Definition make_file_info (group_identifier : GroupId)
    (message : Telethon.Message) (doc : Telethon.Document) (filename : string)
  : FileInfo :=
  {| filename := filename;
     message_id := Telethon.id message;
     date := match Telethon.date message with
             | Some d => d
             | None => ""
             end;
     sender := _get_sender_name message;
     caption := PyStr.take 500 (match Telethon.text message with
                                | Some t => t
                                | None => ""
                                end);
     file_size_mb := match Telethon.size doc with
                     | Some n => if (n =? 0)%Z then 0%Z
                                 else round_mb_hundredths n
                     | None => 0%Z
                     end;
     message_url := make_message_url group_identifier (Telethon.id message) |}.

(** The body of the [async for] loop for one message; [count] is the
    local counter, returned updated. *)
Definition scrape_message (group_identifier : GroupId)
    (file_types : option (list string)) (message : Telethon.Message)
    (count : nat) : M nat :=
  match Telethon.media message with
  | Some (Telethon.MessageMediaDocument document) =>
      doc <- getattr document "attributes" ;;
      let filename := filename_of_attributes (Telethon.attributes doc) in
      let filename :=
        if negb (truthy filename) then
          match Telethon.name doc with
          | Some n => n
          | None => filename
          end
        else filename in
      match filename with
      | PyStr name =>
          if truthy filename && is_target_file filename file_types then
            let file_info := make_file_info group_identifier message doc name in
            append_file file_info ;;;
            print (PrintFile (count + 1) name (file_size_mb file_info)) ;;;
            ret (count + 1)
          else ret count
      | PyNone => ret count
      end
  | _ => ret count
  end.

Fixpoint scrape_messages (group_identifier : GroupId)
    (file_types : option (list string)) (messages : list Telethon.Message)
    (count : nat) : M nat :=
  match messages with
  | [] => ret count
  | message :: rest =>
      count' <- scrape_message group_identifier file_types message count ;;
      scrape_messages group_identifier file_types rest count'
  end.

Definition scrape_group (env : Env) (group_identifier : GroupId) (limit : Z)
    (file_types : option (list string)) : M unit :=
  print (PrintScraping group_identifier) ;;;
  print (PrintScanning limit) ;;;
  resolved <-
    try_except
      (call (CallGetEntity group_identifier) ;;;
       entity <- answer (get_entity_outcome env group_identifier) ;;
       group_title <- getattr (Telethon.title entity) "title" ;;
       print (PrintGroup group_title) ;;;
       ret (Some entity))
      (fun e => print (PrintErrorGettingGroup e) ;;; ret None) ;;
  match resolved with
  | None => ret tt
  | Some entity =>
      call (CallIterMessages limit) ;;;
      let '(messages, failure) := iter_messages_outcome env entity limit in
      count <- scrape_messages group_identifier file_types messages 0 ;;
      outcome failure ;;;
      print (PrintFound count)
  end.

(** The column names of the CSV file. *)
Definition csv_fieldnames : list string :=
  [ "filename"; "message_id"; "date"; "sender"; "caption"; "file_size_mb";
    "message_url" ].

Definition export_csv (env : Env) (output_path : string) : M unit :=
  fs <- get_files ;;
  match fs with
  | [] => print PrintNoFiles
  | _ :: _ =>
      outcome (open_outcome env output_path) ;;;
      write_file output_path (CsvContent csv_fieldnames fs) ;;;
      print (PrintExported output_path)
  end.

Definition export_json (env : Env) (output_path : string) : M unit :=
  fs <- get_files ;;
  match fs with
  | [] => print PrintNoFiles
  | _ :: _ =>
      outcome (open_outcome env output_path) ;;;
      write_file output_path (JsonContent fs) ;;;
      print (PrintExported output_path)
  end.

(** The dictionary [extensions] after the counting loop. *)
Definition count_extensions (fs : list FileInfo) : list (string * nat) :=
  fold_left (fun d f => dict_incr (PyStr.lower (splitext_ext (filename f))) d)
            fs [].

(** [total_size] after the loop, in hundredths (the exact sum). *)
Definition total_size (fs : list FileInfo) : Z :=
  fold_left (fun t f => (t + file_size_mb f)%Z) fs 0%Z.

(** The local [sorted_files] of [print_summary]. *)
Definition sorted_files (fs : list FileInfo) : list FileInfo :=
  firstn 10 (sorted_desc file_size_mb fs).

Definition print_summary : M unit :=
  fs <- get_files ;;
  match fs with
  | [] => ret tt
  | _ :: _ =>
      print PrintSummaryHeader ;;;
      let extensions := count_extensions fs in
      print (PrintTotalFiles (List.length fs)) ;;;
      print (PrintTotalSize (total_size fs)) ;;;
      print PrintByExtension ;;;
      print_all
        (map (fun '(ext, count) =>
                PrintExtension (if (ext =? "")%string then "no extension"
                                else ext) count)
             (firstn 10 (sorted_desc (fun x => Z.of_nat (snd x)) extensions))) ;;;
      print PrintTopHeader ;;;
      print_all
        (map (fun '(i, f) => PrintTopFile i (filename f) (file_size_mb f))
             (enumerate 1 (sorted_files fs))) ;;;
      print PrintSummaryFooter
  end.

Definition close (env : Env) : M unit :=
  call CallDisconnect ;;;
  outcome (disconnect_outcome env) ;;;
  print PrintDisconnected.

(** ** The driver *)

(** The path handed to [export_json]. *)
Definition json_output_path (output : string) : string :=
  PyStr.replace output ".csv" ".json".

(** The statements of the [try] block that follow the construction of the
    scraper. *)
Definition main_body (cfg : Config) (env : Env) (args : Args) : M unit :=
  connect cfg env ;;;
  scrape_group env (GroupStr (group args)) (limit args) (types args) ;;;
  export_csv env (output args) ;;;
  (if json args then export_json env (json_output_path (output args))
   else ret tt) ;;;
  print_summary.

Definition print_world (os : list out_event) (w : World) : World :=
  {| console := console w ++ os; calls := calls w; written := written w |}.

(** [main]: the local variable [scraper] is [None] until the constructor
    has returned.  The result pairs what [main] ends with (a normal return
    or the exception that leaves it) with the scraper, if any, and the
    world. *)
Definition main (cfg : Config) (env : Env) (args : Args) (w : World)
  : result unit * option Scraper * World :=
  let w := print_world [PrintBanner] w in
  (* try *)
  let '(r, scraper, w) :=
    match TelegramFileScraper cfg with
    | Raise e => (Raise e, None, w)
    | Ok s =>
        let '(r, (s', w')) := main_body cfg env args (s, w) in
        (r, Some s', w')
    end in
  (* except Exception as e *)
  let '(r, w) :=
    match r with
    | Ok _ => (Ok tt, w)
    | Raise e =>
        if is_Exception e
        then (Ok tt, print_world [PrintError e; PrintTraceback e] w)
        else (Raise e, w)
    end in
  (* finally: await scraper.close() *)
  match scraper with
  | None => (Raise (UnboundLocalError "scraper"), None, w)
  | Some s =>
      match close env (s, w) with
      | (Ok _, (s', w')) => (r, Some s', w')
      | (Raise e, (s', w')) => (Raise e, Some s', w')
      end
  end.

(** The file found at [path] after the writes [ws]: the last one wins. *)
Fixpoint file_at (path : string) (ws : list (string * FileContent))
  : option FileContent :=
  match ws with
  | [] => None
  | (p, c) :: r =>
      match file_at path r with
      | Some c' => Some c'
      | None => if (p =? path)%string then Some c else None
      end
  end.

Definition empty_world : World :=
  {| console := []; calls := []; written := [] |}.

(** ** Sample inputs *)

(** The sender of a message left by a deleted account: the user object has
    the three attributes and all of them hold [None]. *)
Definition deleted_account : Telethon.Sender :=
  {| Telethon.first_name := Some PyNone;
     Telethon.last_name := Some PyNone;
     Telethon.username := Some PyNone |}.

(** A text message without attachment. *)
Definition message_from (s : option Telethon.Sender) : Telethon.Message :=
  {| Telethon.media := None;
     Telethon.id := 1%Z;
     Telethon.date := None;
     Telethon.sender := s;
     Telethon.text := None |}.

(** A message with number [n] that carries the document [fname] of [bytes]
    bytes. *)
Definition document_message (n : Z) (fname : string) (bytes : Z)
  : Telethon.Message :=
  {| Telethon.media :=
       Some (Telethon.MessageMediaDocument
               (Some {| Telethon.attributes :=
                          [Telethon.DocumentAttributeOther;
                           Telethon.DocumentAttributeFilename (PyStr fname)];
                        Telethon.name := None;
                        Telethon.size := Some bytes |}));
     Telethon.id := n;
     Telethon.date := Some "2024-01-31 08:15:00";
     Telethon.sender := None;
     Telethon.text := Some "release" |}.

(** A record as [scrape_group] builds them. *)
Definition sample_record (n : Z) (fname : string) (size : Z) : FileInfo :=
  {| filename := fname;
     message_id := n;
     date := "2024-01-31 08:15:00";
     sender := PyStr "Unknown";
     caption := "release";
     file_size_mb := size;
     message_url := "https://t.me/mychannel/" ++ PyStr.str_of_int n |}.

(** Is [s] free of dots? *)
Fixpoint no_dot (s : string) : bool :=
  match s with
  | EmptyString => true
  | String c r => negb (Ascii.eqb c ".") && no_dot r
  end.

(** A command line that asks for the JSON report next to [out]. *)
Definition args_with_json (out : string) : Args :=
  {| group := "mychannel";
     limit := 10000%Z;
     output := out;
     types := None;
     json := true |}.

(** The constants left by a failed import of [config]. *)
Definition unconfigured : Config :=
  {| API_ID := None; API_HASH := None; PHONE_NUMBER := None |}.

(** The constants of [config.example.py]. *)
Definition example_config : Config :=
  {| API_ID := Some 12345678%Z;
     API_HASH := Some "your_api_hash_here";
     PHONE_NUMBER := Some "+1234567890" |}.

(** A world in which every request succeeds and the channel holds the
    messages [history]. *)
Definition quiet_env (history : list Telethon.Message) : Env :=
  {| connect_outcome := None;
     is_user_authorized_outcome := Ok true;
     start_outcome := None;
     get_entity_outcome :=
       fun _ => Ok {| Telethon.title := Some (PyStr "Channel") |};
     iter_messages_outcome := fun _ _ => (history, None);
     disconnect_outcome := None;
     open_outcome := fun _ => None |}.

(** ** Readings of the state used in the statements *)

(** The records one message contributes: what [scrape_message] appends
    for it to a scraper that has no file yet. *)
Definition records_of_message (group_identifier : GroupId)
    (file_types : option (list string)) (message : Telethon.Message)
  : list FileInfo :=
  files (fst (snd (scrape_message group_identifier file_types message 0
                     ({| files := [] |}, empty_world)))).

(** A document message whose [document] field is [None]. *)
Definition document_missing (message : Telethon.Message) : bool :=
  match Telethon.media message with
  | Some (Telethon.MessageMediaDocument None) => true
  | _ => false
  end.

(** [d.get(k)] on a dictionary kept in insertion order. *)
Fixpoint dict_get (k : string) (d : list (string * nat)) : option nat :=
  match d with
  | [] => None
  | (k', n) :: r => if (k' =? k)%string then Some n else dict_get k r
  end.

(** The key under which [print_summary] counts a record. *)
Definition extension_of (f : FileInfo) : string :=
  PyStr.lower (splitext_ext (filename f)).

(** The rows of a written report. *)
Definition content_rows (c : FileContent) : list FileInfo :=
  match c with
  | CsvContent _ rows => rows
  | JsonContent rows => rows
  end.

(** A world in which the group cannot be resolved. *)
Definition unresolved_env (e : exn) : Env :=
  {| connect_outcome := None;
     is_user_authorized_outcome := Ok true;
     start_outcome := None;
     get_entity_outcome := fun _ => Raise e;
     iter_messages_outcome := fun _ _ => ([], None);
     disconnect_outcome := None;
     open_outcome := fun _ => None |}.

(** A world in which the channel yields [history] and the iteration then
    fails with [e]. *)
Definition interrupted_env (history : list Telethon.Message) (e : exn) : Env :=
  {| connect_outcome := None;
     is_user_authorized_outcome := Ok false;
     start_outcome := None;
     get_entity_outcome :=
       fun _ => Ok {| Telethon.title := Some (PyStr "Channel") |};
     iter_messages_outcome := fun _ _ => (history, Some e);
     disconnect_outcome := None;
     open_outcome := fun _ => None |}.

(** A world in which no file can be opened for writing. *)
Definition readonly_env (history : list Telethon.Message) (e : exn) : Env :=
  {| connect_outcome := None;
     is_user_authorized_outcome := Ok true;
     start_outcome := None;
     get_entity_outcome :=
       fun _ => Ok {| Telethon.title := Some (PyStr "Channel") |};
     iter_messages_outcome := fun _ _ => (history, None);
     disconnect_outcome := None;
     open_outcome := fun _ => Some e |}.

(** ** The classifier over any lowering of text *)



(** The letter U+2102, double-struck capital C: an upper-case letter
    (category Lu) for which Unicode has no lower-case form, so that
    [str.lower] leaves it as it is. *)
Definition double_struck_capital_c : string :=
  String (ascii_of_nat 226) (String (ascii_of_nat 132)
    (String (ascii_of_nat 130) EmptyString)).

(** * Properties *)

(** ** The primitives on sample inputs *)

Example lower_sample : PyStr.lower "Setup.EXE" = "setup.exe".
Proof. reflexivity. Qed.

Example endswith_sample :
  PyStr.endswith "a.zip" ".zip" = true /\ PyStr.endswith "zip" ".zip" = false /\
  PyStr.endswith "a.zip" "" = true.
Proof. repeat split. Qed.

Example replace_sample :
  PyStr.replace "a.csv.csv" ".csv" ".json" = "a.json.json" /\
  PyStr.replace "x.cs.csvv" ".csv" ".json" = "x.cs.jsonv".
Proof. split; reflexivity. Qed.

Example str_of_int_sample :
  PyStr.str_of_int 42 = "42" /\ PyStr.str_of_int 0 = "0" /\
  PyStr.str_of_int (-7) = "-7".
Proof. repeat split. Qed.

Example round_mb_sample :
  round_mb_hundredths 1048576 = 100%Z /\ round_mb_hundredths 131072 = 12%Z /\
  round_mb_hundredths 393216 = 38%Z /\ round_mb_hundredths 2048 = 0%Z.
Proof. repeat split. Qed.

Example splitext_sample :
  splitext_ext "a.tar.gz" = ".gz" /\ splitext_ext ".bashrc" = "" /\
  splitext_ext "dir.d/file" = "" /\ splitext_ext "dir/..x" = "" /\
  splitext_ext "name." = ".".
Proof. repeat split. Qed.

(** Five messages, three with a document, two of them allowed. *)
Example scrape_sample :
  map filename
    (files (fst (snd (scrape_group
       (quiet_env [document_message 5 "a.zip" 10; message_from None;
                   document_message 3 "b.exe" 10; message_from None;
                   document_message 1 "c.EX4" 10])
       (GroupStr "mychannel") 10000 (Some [".zip"; ".ex4"])
       ({| files := [] |}, empty_world))))) = ["a.zip"; "c.EX4"].
Proof. reflexivity. Qed.

(** ** Strings *)

Section StringFacts.

Local Open Scope string_scope.

Lemma length_app (p x : string) :
  String.length (p ++ x) = String.length p + String.length x.
Proof. induction p as [|c p IH]; simpl; [reflexivity | now rewrite IH]. Qed.

Lemma app_assoc_str (a b c : string) : (a ++ b) ++ c = a ++ (b ++ c).
Proof. induction a as [|x a IH]; simpl; [reflexivity | now rewrite IH]. Qed.

Lemma take_drop (n : nat) (s : string) : PyStr.take n s ++ PyStr.drop n s = s.
Proof.
  revert s; induction n as [|n IH]; intros s.
  - reflexivity.
  - destruct s as [|c s]; simpl; [reflexivity | now rewrite IH].
Qed.

Lemma drop_app_length (p x : string) : PyStr.drop (String.length p) (p ++ x) = x.
Proof. induction p as [|c p IH]; simpl; [now destruct x | exact IH]. Qed.

(** [endswith] is the suffix relation. *)
Lemma endswith_iff (s x : string) :
  PyStr.endswith s x = true <-> exists p, s = p ++ x.
Proof.
  unfold PyStr.endswith. rewrite andb_true_iff, Nat.leb_le, String.eqb_eq.
  split.
  - intros [_ Hd].
    exists (PyStr.take (String.length s - String.length x) s).
    rewrite <- (take_drop (String.length s - String.length x) s) at 1.
    now rewrite Hd.
  - intros [p ->]. rewrite length_app. split; [lia|].
    replace (String.length p + String.length x - String.length x)
      with (String.length p) by lia.
    apply drop_app_length.
Qed.

Lemma lower_app (p x : string) :
  PyStr.lower (p ++ x) = PyStr.lower p ++ PyStr.lower x.
Proof. induction p as [|c p IH]; simpl; [reflexivity | now rewrite IH]. Qed.

Lemma lower_char_not_upper (c : ascii) :
  PyStr.is_upper_char (PyStr.lower_char c) = false.
Proof. destruct c as [[] [] [] [] [] [] [] []]; reflexivity. Qed.

Lemma lower_char_fix (c : ascii) :
  PyStr.is_upper_char c = false -> PyStr.lower_char c = c.
Proof.
  unfold PyStr.is_upper_char, PyStr.lower_char. cbv zeta. now intros ->.
Qed.

Lemma has_upper_lower (s : string) : PyStr.has_upper (PyStr.lower s) = false.
Proof.
  induction s as [|c s IH]; simpl; [reflexivity|].
  now rewrite lower_char_not_upper, IH.
Qed.

Lemma has_upper_app (p x : string) :
  PyStr.has_upper (p ++ x) = PyStr.has_upper p || PyStr.has_upper x.
Proof.
  induction p as [|c p IH]; simpl; [reflexivity|].
  now rewrite IH, orb_assoc.
Qed.

Lemma lower_fix (s : string) : PyStr.has_upper s = false -> PyStr.lower s = s.
Proof.
  induction s as [|c s IH]; simpl; [reflexivity|].
  rewrite orb_false_iff. intros [Hc Hs].
  now rewrite (lower_char_fix c Hc), (IH Hs).
Qed.

(** A suffix with a capital letter is never the suffix of a lowered text. *)
Lemma endswith_lower_upper (s x : string) :
  PyStr.has_upper x = true -> PyStr.endswith (PyStr.lower s) x = false.
Proof.
  intros Hx. destruct (PyStr.endswith (PyStr.lower s) x) eqn:E; [|reflexivity].
  apply endswith_iff in E. destruct E as [p Hp].
  pose proof (has_upper_lower s) as Hl.
  rewrite Hp, has_upper_app, Hx, orb_true_r in Hl. discriminate.
Qed.

End StringFacts.

(** ** The classifier [is_target_file] *)

(** The extension set in force: the supplied one, else the default. *)
Lemma is_target_file_nonempty (name : string) (file_types : option (list string)) :
  name <> "" ->
  is_target_file (PyStr name) file_types =
  existsb (fun ext => PyStr.endswith (PyStr.lower name) ext)
          (match file_types with Some l => l | None => default_file_types end).
Proof.
  intros Hn. unfold is_target_file, PyStr.any.
  destruct (String.eqb_spec name ""); [contradiction|].
  now destruct file_types.
Qed.

(** When [is_target_file] answers true. *)
Lemma is_target_file_true_iff
    (filename : pyval) (file_types : option (list string)) :
  is_target_file filename file_types = true <->
  exists name ext p,
    filename = PyStr name /\ name <> "" /\
    In ext (match file_types with Some l => l | None => default_file_types end) /\
    PyStr.lower name = (p ++ ext)%string.
Proof.
  destruct filename as [|name].
  - simpl. split; [discriminate|].
    intros (n & e & p & H & _). discriminate.
  - destruct (String.eqb_spec name "") as [->|Hne].
    + simpl. split; [discriminate|].
      intros (n & e & p & H & Hn & _). injection H as <-. contradiction.
    + rewrite (is_target_file_nonempty name file_types Hne), existsb_exists.
      split.
      * intros (ext & Hin & He). apply endswith_iff in He.
        destruct He as [p Hp]. now exists name, ext, p.
      * intros (n & ext & p & H & _ & Hin & Hp). injection H as <-.
        exists ext. split; [assumption|].
        apply endswith_iff. now exists p.
Qed.

(** C4.  [is_target_file] is a total function to [bool] with no effect.
    It answers false for an absent or empty file name; for any other name
    it answers true exactly when the lower-cased name ends with one of the
    extensions of the set in force, which is the supplied set when one is
    given and the built-in list otherwise. *)
Theorem is_target_file_spec (filename : pyval) (file_types : option (list string)) :
  (truthy filename = false -> is_target_file filename file_types = false) /\
  (is_target_file filename file_types = true <->
   exists name ext p,
     filename = PyStr name /\ name <> "" /\
     In ext (match file_types with Some l => l | None => default_file_types end) /\
     PyStr.lower name = (p ++ ext)%string).
Proof.
  split.
  - destruct filename as [|name]; simpl; [reflexivity|].
    destruct (String.eqb_spec name ""); [reflexivity | discriminate].
  - destruct filename as [|name].
    + simpl. split; [discriminate|].
      intros (n & e & p & H & _). discriminate.
    + destruct (String.eqb_spec name "") as [->|Hne].
      * simpl. split; [discriminate|].
        intros (n & e & p & H & Hn & _). injection H as <-. contradiction.
      * rewrite (is_target_file_nonempty name file_types Hne), existsb_exists.
        split.
        -- intros (ext & Hin & He). apply endswith_iff in He.
           destruct He as [p Hp]. now exists name, ext, p.
        -- intros (n & ext & p & H & _ & Hin & Hp). injection H as <-.
           exists ext. split; [assumption|].
           apply endswith_iff. now exists p.
Qed.

Lemma is_target_file_spec_witness :
  is_target_file (PyStr "") (Some [".zip"]) = false /\
  is_target_file (PyStr "A.ZIP") (Some [".zip"]) = true.
Proof.
  split.
  - apply (proj1 (is_target_file_spec (PyStr "") (Some [".zip"]))).
    reflexivity.
  - apply (proj2 (is_target_file_spec (PyStr "A.ZIP") (Some [".zip"]))).
    exists "A.ZIP", ".zip", "a". repeat split.
    + discriminate.
    + simpl. now left.
Defined.

Lemma last_char_app (p x : string) :
  x <> "" -> PyStr.last_char (p ++ x) = PyStr.last_char x.
Proof.
  intros Hx. induction p as [|c p IH]; [reflexivity|].
  simpl. destruct (p ++ x)%string eqn:E; [|exact IH].
  destruct p; simpl in E; [contradiction | discriminate].
Qed.

Lemma endswith_last_char (s x : string) :
  PyStr.endswith s x = true -> x <> "" -> PyStr.last_char s = PyStr.last_char x.
Proof.
  intros E Hx. apply endswith_iff in E. destruct E as [p ->].
  now apply last_char_app.
Qed.

(** C9.  With no extension set supplied, every file name whose lower-cased
    form ends with a member of the built-in list is accepted, the built-in
    list is the documented one, and every file name whose lower-cased form
    ends with [.exe] is rejected. *)
Theorem default_file_types_complete :
  default_file_types =
    [ ".ex4"; ".ex5"; ".mq4"; ".mq5"; ".zip"; ".rar"; ".7z"; ".pdf"; ".doc";
      ".docx"; ".txt"; ".jpg"; ".jpeg"; ".png"; ".gif"; ".mp4"; ".avi";
      ".mkv"; ".py"; ".js"; ".html" ] /\
  (forall name ext p,
     In ext default_file_types ->
     PyStr.lower name = (p ++ ext)%string ->
     is_target_file (PyStr name) None = true) /\
  (forall name p,
     PyStr.lower name = (p ++ ".exe")%string ->
     is_target_file (PyStr name) None = false).
Proof.
  split; [reflexivity|]. split.
  - intros name ext p Hin Hp.
    apply (is_target_file_true_iff (PyStr name) None).
    exists name, ext, p. repeat split; try assumption.
    intros ->. simpl in Hp. destruct p; simpl in Hp; [|discriminate].
    subst ext. simpl in Hin.
    repeat (destruct Hin as [Hin|Hin]; [discriminate|]). exact Hin.
  - intros name p Hp.
    assert (Hne : name <> "").
    { intros ->. destruct p; discriminate. }
    rewrite (is_target_file_nonempty name None Hne), Hp.
    destruct (existsb _ _) eqn:E; [|reflexivity].
    apply existsb_exists in E. destruct E as (ext & Hin & He).
    assert (Hx : ext <> "").
    { intros ->. simpl in Hin.
      repeat (destruct Hin as [Hin|Hin]; [discriminate|]). exact Hin. }
    apply endswith_last_char in He; [|exact Hx].
    rewrite last_char_app in He by discriminate.
    simpl in Hin.
    repeat (destruct Hin as [Hin|Hin]; [subst ext; discriminate|]).
    contradiction.
Qed.

Lemma default_file_types_complete_witness :
  is_target_file (PyStr "Report.PDF") None = true /\
  is_target_file (PyStr "Setup.EXE") None = false.
Proof.
  split.
  - apply (proj1 (proj2 default_file_types_complete) "Report.PDF" ".pdf" "report").
    + simpl. auto 20.
    + reflexivity.
  - apply (proj2 (proj2 default_file_types_complete) "Setup.EXE" "setup").
    reflexivity.
Defined.

(** The letters A-Z.  With an explicit allow-list only the file name is
    lower-cased.  An entry that contains one of them matches no file name,
    so it can be struck from the list without changing any answer; an
    entry is compared as a bare suffix, so every non-empty file name whose
    lower-cased form ends with the characters of an entry is accepted,
    leading dot or not. *)
Theorem explicit_types_not_lowered :
  (forall filename ext,
     PyStr.has_upper ext = true ->
     is_target_file filename (Some [ext]) = false) /\
  (forall filename file_types,
     is_target_file filename (Some file_types) =
     is_target_file filename
       (Some (filter (fun ext => negb (PyStr.has_upper ext)) file_types))) /\
  (forall name ext p file_types,
     name <> "" ->
     In ext file_types ->
     PyStr.lower name = (p ++ ext)%string ->
     is_target_file (PyStr name) (Some file_types) = true) /\
  is_target_file (PyStr "myzip") (Some ["zip"]) = true /\
  is_target_file (PyStr "a.zip") (Some [".ZIP"]) = false.
Proof.
  split; [|split; [|split; [|split; reflexivity]]].
  - intros [|name] ext Hup; [reflexivity|].
    destruct (String.eqb_spec name "") as [->|Hne]; [reflexivity|].
    rewrite (is_target_file_nonempty name _ Hne). simpl.
    now rewrite (endswith_lower_upper name ext Hup).
  - intros [|name] file_types; [reflexivity|].
    destruct (String.eqb_spec name "") as [->|Hne]; [reflexivity|].
    rewrite !(is_target_file_nonempty name _ Hne).
    induction file_types as [|ext l IH]; [reflexivity|].
    simpl. destruct (PyStr.has_upper ext) eqn:Hup; simpl.
    + now rewrite (endswith_lower_upper name ext Hup).
    + now rewrite IH.
  - intros name ext p file_types Hne Hin Hp.
    apply (is_target_file_true_iff (PyStr name) (Some file_types)).
    now exists name, ext, p.
Qed.

Lemma explicit_types_not_lowered_witness :
  is_target_file (PyStr "Archive.Zip") (Some [".Zip"]) = false /\
  is_target_file (PyStr "MyZip") (Some [".rar"; "zip"]) = true.
Proof.
  split.
  - apply (proj1 explicit_types_not_lowered). reflexivity.
  - apply (proj1 (proj2 (proj2 explicit_types_not_lowered))
             "MyZip" "zip" "my" [".rar"; "zip"]).
    + discriminate.
    + simpl. auto.
    + reflexivity.
Defined.

(** ** Sender resolution *)

(** X4.  The order of the tests in [_get_sender_name]: no sender gives
    "Unknown"; a first name that is a text is returned, followed by a
    space and the last name when that one is a non-empty text; without a
    [first_name] attribute a non-empty user name gives "@" and the user
    name, and anything else "Unknown". *)
Lemma get_sender_name_priority (message : Telethon.Message) :
  match Telethon.sender message with
  | None => _get_sender_name message = PyStr "Unknown"
  | Some s =>
      match Telethon.first_name s with
      | Some (PyStr first) =>
          match Telethon.last_name s with
          | Some (PyStr last) =>
              _get_sender_name message =
              PyStr (if (last =? "")%string then first
                     else (first ++ " " ++ last)%string)
          | _ => _get_sender_name message = PyStr first
          end
      | Some PyNone => True
      | None =>
          match Telethon.username s with
          | Some (PyStr user) =>
              _get_sender_name message =
              PyStr (if (user =? "")%string then "Unknown"
                     else ("@" ++ user)%string)
          | _ => _get_sender_name message = PyStr "Unknown"
          end
      end
  end.
Proof.
  unfold _get_sender_name.
  destruct (Telethon.sender message) as [s|]; [|reflexivity].
  destruct (Telethon.first_name s) as [[|first]|].
  - exact I.
  - destruct (Telethon.last_name s) as [[|last]|]; try reflexivity.
    simpl. now destruct (last =? "")%string.
  - destruct (Telethon.username s) as [[|user]|]; try reflexivity.
    simpl. now destruct (user =? "")%string.
Qed.

(** C1.  The sender of a deleted account has a [first_name] attribute that
    holds [None]: [_get_sender_name] then returns that [None], whatever
    the user name is, instead of a name or ["Unknown"].  A first name that
    is the empty text is returned as it is, and a [None] first name next
    to a last name is printed into the result. *)
Theorem get_sender_name_null :
  _get_sender_name (message_from (Some deleted_account)) = PyNone /\
  _get_sender_name
    (message_from (Some {| Telethon.first_name := Some PyNone;
                           Telethon.last_name := Some PyNone;
                           Telethon.username := Some (PyStr "bob") |}))
    = PyNone /\
  _get_sender_name
    (message_from (Some {| Telethon.first_name := Some (PyStr "");
                           Telethon.last_name := Some PyNone;
                           Telethon.username := Some (PyStr "bob") |}))
    = PyStr "" /\
  _get_sender_name
    (message_from (Some {| Telethon.first_name := Some PyNone;
                           Telethon.last_name := Some (PyStr "Smith");
                           Telethon.username := Some PyNone |}))
    = PyStr "None Smith".
Proof. repeat split. Qed.

(** ** Scraping a group *)

Open Scope list_scope.

(** C3.  When the request that resolves the group identifier fails with an
    error, [scrape_group] prints the error and returns normally: nothing
    is raised, the list of files of the scraper is the one it had, no
    message is requested and no file is written. *)
Theorem scrape_group_resolution_failure
    (env : Env) (g : GroupId) (limit : Z) (file_types : option (list string))
    (self : Scraper) (w : World) (e : exn) :
  get_entity_outcome env g = Raise e ->
  is_Exception e = true ->
  scrape_group env g limit file_types (self, w) =
  (Ok tt,
   (self,
    {| console := console w ++
                  [PrintScraping g; PrintScanning limit;
                   PrintErrorGettingGroup e];
       calls := calls w ++ [CallGetEntity g];
       written := written w |})).
Proof.
  intros Hget Hexc.
  unfold scrape_group, bind, try_except, print, call, answer, raise, ret.
  simpl. rewrite Hget. simpl. rewrite Hexc. simpl.
  now rewrite <- !app_assoc.
Qed.

Lemma scrape_group_resolution_failure_witness :
  let env :=
    {| connect_outcome := None;
       is_user_authorized_outcome := Ok true;
       start_outcome := None;
       get_entity_outcome := fun _ => Raise (ValueError "no such group");
       iter_messages_outcome := fun _ _ => ([document_message 7 "a.zip" 10], None);
       disconnect_outcome := None;
       open_outcome := fun _ => None |} in
  scrape_group env (GroupStr "nowhere") 100 None ({| files := [] |}, empty_world) =
  (Ok tt,
   ({| files := [] |},
    {| console := [PrintScraping (GroupStr "nowhere"); PrintScanning 100;
                   PrintErrorGettingGroup (ValueError "no such group")];
       calls := [CallGetEntity (GroupStr "nowhere")];
       written := [] |})).
Proof.
  intros env.
  apply (scrape_group_resolution_failure env (GroupStr "nowhere") 100 None
           {| files := [] |} empty_world (ValueError "no such group")).
  - reflexivity.
  - reflexivity.
Defined.

(** An entity that resolves but has no title is handled the same way. *)
Lemma scrape_group_no_title
    (env : Env) (g : GroupId) (limit : Z) (file_types : option (list string))
    (self : Scraper) (w : World) :
  get_entity_outcome env g = Ok {| Telethon.title := None |} ->
  fst (scrape_group env g limit file_types (self, w)) = Ok tt /\
  fst (snd (scrape_group env g limit file_types (self, w))) = self.
Proof.
  intros Hget.
  unfold scrape_group, bind, try_except, print, call, answer, raise, ret.
  simpl. rewrite Hget. simpl. now split.
Qed.

(** One message adds at most one record, built by [make_file_info]. *)
Lemma scrape_message_files
    (g : GroupId) (file_types : option (list string))
    (message : Telethon.Message) (count : nat) (self : Scraper) (w : World) :
  let st' := snd (scrape_message g file_types message count (self, w)) in
  files (fst st') = files self \/
  exists doc name,
    files (fst st') = files self ++ [make_file_info g message doc name].
Proof.
  unfold scrape_message.
  destruct (Telethon.media message) as [[[doc|]|]|]; simpl; auto.
  unfold bind, getattr, ret. simpl.
  match goal with
  | |- context [match ?f with PyNone => _ | PyStr _ => _ end] =>
      destruct f as [|name]
  end; simpl; auto.
  match goal with
  | |- context [if ?c then _ else _] => destruct c
  end; simpl; auto.
  right. now exists doc, name.
Qed.

Lemma scrape_messages_files
    (g : GroupId) (file_types : option (list string))
    (messages : list Telethon.Message) :
  forall (count : nat) (self : Scraper) (w : World),
    let st' := snd (scrape_messages g file_types messages count (self, w)) in
    exists new,
      files (fst st') = files self ++ new /\
      Forall (fun r => exists message doc name,
                         In message messages /\
                         r = make_file_info g message doc name) new.
Proof.
  induction messages as [|m rest IH]; intros count self w; simpl.
  - exists []. split; [now rewrite app_nil_r | constructor].
  - unfold bind.
    pose proof (scrape_message_files g file_types m count self w) as Hm.
    destruct (scrape_message g file_types m count (self, w))
      as [[count'|e] [self1 w1]]; simpl in Hm.
    + destruct (IH count' self1 w1) as (new & Hnew & Hall).
      assert (Hall' : Forall (fun r => exists message doc name,
                         In message (m :: rest) /\
                         r = make_file_info g message doc name) new).
      { eapply Forall_impl; [|exact Hall].
        intros r (m' & d & n & Hin & ->). exists m', d, n. split; auto.
        now right. }
      destruct Hm as [Hm | (doc & name & Hm)].
      * exists new. rewrite Hnew, Hm. auto.
      * exists (make_file_info g m doc name :: new).
        rewrite Hnew, Hm, <- app_assoc. split; [reflexivity|].
        constructor; [|exact Hall'].
        exists m, doc, name. split; [now left | reflexivity].
    + simpl. destruct Hm as [Hm | (doc & name & Hm)].
      * exists []. rewrite app_nil_r. auto.
      * exists [make_file_info g m doc name]. split; [exact Hm|].
        constructor; [|constructor].
        exists m, doc, name. split; [now left | reflexivity].
Qed.

Lemma make_file_info_url
    (g : GroupId) (message : Telethon.Message) (doc : Telethon.Document)
    (name : string) :
  message_url (make_file_info g message doc name) =
  make_message_url g (message_id (make_file_info g message doc name)).
Proof. reflexivity. Qed.

(** What [scrape_group] does to the list of files: it appends records
    built by [make_file_info] and touches nothing else. *)
Lemma scrape_group_files
    (env : Env) (g : GroupId) (limit : Z) (file_types : option (list string))
    (self : Scraper) (w : World) :
  exists new,
    files (fst (snd (scrape_group env g limit file_types (self, w)))) =
      files self ++ new /\
    Forall (fun r => exists message doc name,
                       r = make_file_info g message doc name) new.
Proof.
  unfold scrape_group, bind, try_except, print, call, answer, raise, ret.
  simpl.
  destruct (get_entity_outcome env g) as [entity|e]; simpl.
  - destruct (Telethon.title entity) as [t|]; simpl.
    + destruct (iter_messages_outcome env entity limit) as [messages failure].
      match goal with
      | |- context [scrape_messages g file_types messages 0 (?s, ?w0)] =>
          destruct (scrape_messages_files g file_types messages 0 s w0)
            as (new & Hnew & Hall);
          destruct (scrape_messages g file_types messages 0 (s, w0))
            as [[count|e] [self1 w1]]
      end; simpl in *.
      * exists new. split.
        -- destruct failure; simpl; exact Hnew.
        -- eapply Forall_impl; [|exact Hall].
           intros r (m & d & n & _ & ->). now exists m, d, n.
      * exists new. split; [exact Hnew|].
        eapply Forall_impl; [|exact Hall].
        intros r (m & d & n & _ & ->). now exists m, d, n.
    + exists []. split; [now rewrite app_nil_r | constructor].
  - destruct (is_Exception e); simpl;
      (exists []; split; [now rewrite app_nil_r | constructor]).
Qed.

(** C5.  Every record that [scrape_group] adds has as [message_url] the
    text [https://t.me/<identifier>/<message id>] when the group identifier
    is a text that does not start with [http], and the message id written
    in decimal in every other case.  With message 42, the identifier
    [mychannel] gives [https://t.me/mychannel/42] and the identifier
    [https://t.me/mychannel] gives [42]. *)
Theorem message_url_of_accepted :
  (forall (env : Env) (g : GroupId) (limit : Z)
          (file_types : option (list string)) (self : Scraper) (w : World),
     exists new,
       files (fst (snd (scrape_group env g limit file_types (self, w)))) =
         files self ++ new /\
       Forall (fun r =>
                 message_url r =
                 match g with
                 | GroupStr s =>
                     if String.prefix "http" s
                     then PyStr.str_of_int (message_id r)
                     else ("https://t.me/" ++ s ++ "/" ++
                           PyStr.str_of_int (message_id r))%string
                 | GroupInt _ => PyStr.str_of_int (message_id r)
                 end) new) /\
  map message_url
    (files (fst (snd (scrape_group
                        (quiet_env [document_message 42 "a.zip" 2048])
                        (GroupStr "mychannel") 10000 None
                        ({| files := [] |}, empty_world))))) =
    ["https://t.me/mychannel/42"%string] /\
  map message_url
    (files (fst (snd (scrape_group
                        (quiet_env [document_message 42 "a.zip" 2048])
                        (GroupStr "https://t.me/mychannel") 10000 None
                        ({| files := [] |}, empty_world))))) =
    ["42"%string].
Proof.
  split; [|split; reflexivity].
  intros env g limit file_types self w.
  destruct (scrape_group_files env g limit file_types self w)
    as (new & Hnew & Hall).
  exists new. split; [exact Hnew|].
  eapply Forall_impl; [|exact Hall].
  intros r (m & d & n & ->). rewrite make_file_info_url.
  unfold make_message_url, PyStr.startswith.
  destruct g as [s|z]; [|reflexivity].
  now destruct (String.prefix "http" s).
Qed.

(** ** The exporters *)

(** C6.  With an empty list of files, [export_csv] and [export_json]
    print the warning, write nothing and return normally, and a run of
    [main] that found nothing ends normally, with no file written, after
    the disconnection.  With a non-empty list, and a path that can be
    opened for writing, each of them writes all the records to that path
    and returns normally. *)
Theorem export_empty_is_warning :
  (forall (env : Env) (path : string) (self : Scraper) (w : World),
     files self = [] ->
     export_csv env path (self, w) =
       (Ok tt, (self, print_world [PrintNoFiles] w)) /\
     export_json env path (self, w) =
       (Ok tt, (self, print_world [PrintNoFiles] w))) /\
  (forall (env : Env) (path : string) (self : Scraper) (w : World),
     files self <> [] ->
     open_outcome env path = None ->
     export_csv env path (self, w) =
       (Ok tt,
        (self,
         {| console := console w ++ [PrintExported path];
            calls := calls w;
            written := written w ++
                       [(path, CsvContent csv_fieldnames (files self))] |})) /\
     export_json env path (self, w) =
       (Ok tt,
        (self,
         {| console := console w ++ [PrintExported path];
            calls := calls w;
            written := written w ++ [(path, JsonContent (files self))] |}))) /\
  (forall (args : Args),
     let '(r, scraper, w') :=
       main example_config (quiet_env []) args empty_world in
     r = Ok tt /\
     scraper = Some {| files := [] |} /\
     written w' = [] /\
     In PrintNoFiles (console w') /\
     last (calls w') CallConnect = CallDisconnect).
Proof.
  split; [|split].
  - intros env path [fs] w Hfs. simpl in Hfs. subst fs. split; reflexivity.
  - intros env path [fs] w Hfs Hopen. simpl in Hfs.
    unfold export_csv, export_json, bind, get_files. simpl.
    destruct fs as [|f fs]; [contradiction|].
    rewrite Hopen. split; reflexivity.
  - intros [g l o t j]. unfold main, main_body. simpl.
    destruct j; simpl; repeat split; auto 15.
Qed.

Lemma export_empty_is_warning_witness :
  export_csv (quiet_env []) "scraped_files.csv" ({| files := [] |}, empty_world) =
    (Ok tt, ({| files := [] |}, print_world [PrintNoFiles] empty_world)) /\
  written
    (snd (snd (export_json (quiet_env []) "scraped_files.json"
                 ({| files := [sample_record 42 "a.zip" 150] |}, empty_world)))) =
  [("scraped_files.json"%string, JsonContent [sample_record 42 "a.zip" 150])].
Proof.
  split.
  - apply (proj1 export_empty_is_warning (quiet_env []) "scraped_files.csv"
             {| files := [] |} empty_world).
    reflexivity.
  - assert (Hne : files {| files := [sample_record 42 "a.zip" 150] |} <> [])
      by discriminate.
    assert (Hopen : open_outcome (quiet_env []) "scraped_files.json" = None)
      by reflexivity.
    rewrite (proj2 (proj1 (proj2 export_empty_is_warning) (quiet_env [])
               "scraped_files.json" _ empty_world Hne Hopen)).
    reflexivity.
Defined.

(** ** Sorting for the summary *)

Section SortedDesc.

Variable A : Type.
Variable key : A -> Z.

(** [a] may stand before [b] in descending order. *)
Local Abbreviation ge_key := (fun a b : A => (key b <= key a)%Z).

Lemma insert_desc_perm (x : A) (l : list A) :
  Permutation (x :: l) (insert_desc key x l).
Proof.
  induction l as [|y r IH]; simpl; [reflexivity|].
  destruct (key x <? key y)%Z; [|reflexivity].
  rewrite perm_swap. now constructor.
Qed.

Lemma sorted_desc_perm (l : list A) : Permutation l (sorted_desc key l).
Proof.
  induction l as [|x l IH]; simpl; [constructor|].
  rewrite <- insert_desc_perm. now constructor.
Qed.

Lemma insert_desc_sorted (x : A) (l : list A) :
  StronglySorted ge_key l -> StronglySorted ge_key (insert_desc key x l).
Proof.
  induction 1 as [|y r Hr IH Hy]; simpl.
  - repeat constructor.
  - destruct (Z.ltb_spec (key x) (key y)).
    + constructor; [exact IH|].
      rewrite <- insert_desc_perm. constructor; [lia | exact Hy].
    + constructor; [now constructor|].
      constructor; [lia|].
      eapply Forall_impl; [|exact Hy]. intros z Hz. simpl in Hz. lia.
Qed.

Lemma sorted_desc_sorted (l : list A) : StronglySorted ge_key (sorted_desc key l).
Proof.
  induction l as [|x l IH]; simpl; [constructor|].
  now apply insert_desc_sorted.
Qed.

(** Insertion leaves the records of any one key in their order, the new
    record first. *)
Lemma filter_insert_desc (k : Z) (x : A) (l : list A) :
  filter (fun a => (key a =? k)%Z) (insert_desc key x l) =
  filter (fun a => (key a =? k)%Z) (x :: l).
Proof.
  induction l as [|y r IH]; [reflexivity|].
  simpl insert_desc. destruct (Z.ltb_spec (key x) (key y)); [|reflexivity].
  simpl in *. rewrite IH.
  destruct (Z.eqb_spec (key x) k), (Z.eqb_spec (key y) k); try reflexivity.
  lia.
Qed.

(** The sort is stable. *)
Lemma sorted_desc_stable (k : Z) (l : list A) :
  filter (fun a => (key a =? k)%Z) (sorted_desc key l) =
  filter (fun a => (key a =? k)%Z) l.
Proof.
  induction l as [|x l IH]; [reflexivity|].
  simpl sorted_desc. rewrite filter_insert_desc. simpl. now rewrite IH.
Qed.

Lemma sorted_app_le (l1 l2 : list A) :
  StronglySorted ge_key (l1 ++ l2) ->
  forall a b, In a l1 -> In b l2 -> (key b <= key a)%Z.
Proof.
  induction l1 as [|x l1 IH]; simpl; intros Hs a b Ha Hb; [contradiction|].
  inversion Hs as [|? ? Hs' Hx]; subst.
  destruct Ha as [<-|Ha].
  - rewrite Forall_forall in Hx. apply Hx, in_or_app. now right.
  - now apply (IH Hs' a b).
Qed.

Lemma in_firstn (n : nat) (l : list A) (y : A) : In y (firstn n l) -> In y l.
Proof.
  intros Hy. rewrite <- (firstn_skipn n l). apply in_or_app. now left.
Qed.

Lemma sorted_firstn (n : nat) (l : list A) :
  StronglySorted ge_key l -> StronglySorted ge_key (firstn n l).
Proof.
  intros Hs. revert n. induction Hs as [|x l Hl IH Hx]; intros [|n]; simpl;
    try constructor.
  - apply IH.
  - rewrite Forall_forall in *. intros y Hy. apply Hx.
    eapply in_firstn; exact Hy.
Qed.

Lemma filter_firstn (f : A -> bool) (n : nat) (l : list A) :
  exists m, filter f (firstn n l) = firstn m (filter f l).
Proof.
  revert n. induction l as [|x l IH]; intros [|n]; simpl.
  - now exists 0.
  - now exists 0.
  - now exists 0.
  - destruct (IH n) as [m Hm]. destruct (f x).
    + exists (S m). simpl. now rewrite Hm.
    + now exists m.
Qed.

End SortedDesc.

(** ** The summary *)

(** What [print_summary] prints and that it changes nothing else. *)
Lemma print_summary_effect (self : Scraper) (w : World) :
  exists out,
    print_summary (self, w) =
      (Ok tt,
       (self,
        {| console := console w ++ out;
           calls := calls w;
           written := written w |})) /\
    (files self = [] -> out = []) /\
    (files self <> [] ->
     exists pre,
       out = pre ++
             PrintTopHeader ::
             map (fun '(i, f) => PrintTopFile i (filename f) (file_size_mb f))
                 (enumerate 1 (sorted_files (files self))) ++
             [PrintSummaryFooter]).
Proof.
  destruct self as [fs]. destruct w as [c cl wr]. simpl.
  destruct fs as [|f fs].
  - exists []. rewrite app_nil_r. split; [reflexivity|].
    split; [reflexivity | congruence].
  - unfold print_summary, bind, get_files, print, print_all, ret.
    cbn [files console calls written].
    set (E := map _ (firstn 10 _)).
    set (T := map _ (enumerate 1 _)).
    exists ([PrintSummaryHeader; PrintTotalFiles (List.length (f :: fs));
             PrintTotalSize (total_size (f :: fs)); PrintByExtension] ++
            E ++ [PrintTopHeader] ++ T ++ [PrintSummaryFooter]).
    split; [|split].
    + repeat rewrite <- app_assoc. reflexivity.
    + discriminate.
    + intros _.
      exists ([PrintSummaryHeader; PrintTotalFiles (List.length (f :: fs));
               PrintTotalSize (total_size (f :: fs)); PrintByExtension] ++ E).
      rewrite <- app_assoc. reflexivity.
Qed.

(** C7.  The list [sorted_files] from which the "Top 10 Largest Files"
    lines are printed has ten records, or all of them when there are fewer;
    it is in descending order of [file_size_mb]; every record left out is
    no larger than any record in it; the records of any one size appear in
    it in the order they have in the list of files, the earliest first;
    and [print_summary] returns with the scraper, its list of files
    included, exactly as it was. *)
Theorem summary_top10 (fs : list FileInfo) :
  List.length (sorted_files fs) = Nat.min 10 (List.length fs) /\
  StronglySorted (fun a b => (file_size_mb b <= file_size_mb a)%Z)
                 (sorted_files fs) /\
  (exists rest,
     Permutation fs (sorted_files fs ++ rest) /\
     forall a b, In a (sorted_files fs) -> In b rest ->
                 (file_size_mb b <= file_size_mb a)%Z) /\
  (forall size, exists n,
     filter (fun r => (file_size_mb r =? size)%Z) (sorted_files fs) =
     firstn n (filter (fun r => (file_size_mb r =? size)%Z) fs)) /\
  (forall (self : Scraper) (w : World),
     files self = fs ->
     exists out,
       print_summary (self, w) =
         (Ok tt,
          (self,
           {| console := console w ++ out;
              calls := calls w;
              written := written w |})) /\
       (fs <> [] ->
        exists pre,
          out = pre ++
                PrintTopHeader ::
                map (fun '(i, f) =>
                       PrintTopFile i (filename f) (file_size_mb f))
                    (enumerate 1 (sorted_files fs)) ++
                [PrintSummaryFooter])).
Proof.
  unfold sorted_files.
  split; [|split; [|split; [|split]]].
  - rewrite length_firstn.
    now rewrite <- (Permutation_length (sorted_desc_perm _ file_size_mb fs)).
  - apply sorted_firstn, sorted_desc_sorted.
  - exists (skipn 10 (sorted_desc file_size_mb fs)). split.
    + rewrite firstn_skipn. apply sorted_desc_perm.
    + apply sorted_app_le. rewrite firstn_skipn. apply sorted_desc_sorted.
  - intros size.
    destruct (filter_firstn _ (fun r => (file_size_mb r =? size)%Z) 10
                (sorted_desc file_size_mb fs)) as [n Hn].
    exists n. now rewrite Hn, sorted_desc_stable.
  - intros self w <-.
    destruct (print_summary_effect self w) as (out & Hrun & _ & Hout).
    exists out. split; [exact Hrun | exact Hout].
Qed.

Lemma summary_top10_witness :
  exists out,
    print_summary
      ({| files := [sample_record 1 "a.zip" 150; sample_record 2 "b.zip" 300;
                    sample_record 3 "c.zip" 150] |}, empty_world) =
    (Ok tt,
     ({| files := [sample_record 1 "a.zip" 150; sample_record 2 "b.zip" 300;
                   sample_record 3 "c.zip" 150] |},
      {| console := out; calls := []; written := [] |})).
Proof.
  destruct (proj2 (proj2 (proj2 (proj2
              (summary_top10 [sample_record 1 "a.zip" 150;
                              sample_record 2 "b.zip" 300;
                              sample_record 3 "c.zip" 150]))))
              {| files := [sample_record 1 "a.zip" 150;
                           sample_record 2 "b.zip" 300;
                           sample_record 3 "c.zip" 150] |}
              empty_world eq_refl) as (out & Hrun & _).
  exists out. exact Hrun.
Defined.

(** Twelve records of different sizes, and three of one size. *)
Example sorted_files_sample :
  map message_id
    (sorted_files
       (map (fun n => sample_record n "f.zip" (if Z.even n then n * 10 else n))
            [1; 2; 3; 4; 5; 6; 7; 8; 9; 10; 11; 12]%Z)) =
    [12; 10; 8; 6; 4; 2; 11; 9; 7; 5]%Z /\
  map message_id
    (sorted_files [sample_record 1 "a.zip" 150; sample_record 2 "b.zip" 300;
                   sample_record 3 "c.zip" 150; sample_record 4 "d.zip" 150]) =
    [2; 1; 3; 4]%Z.
Proof. split; reflexivity. Qed.

(** ** The driver *)

(** [close] always asks for the disconnection. *)
Lemma close_calls (env : Env) (self : Scraper) (w : World) :
  calls (snd (snd (close env (self, w)))) = calls w ++ [CallDisconnect] /\
  fst (snd (close env (self, w))) = self.
Proof.
  unfold close, bind, call, outcome, print, raise, ret. simpl.
  destruct (disconnect_outcome env); simpl; now split.
Qed.

(** Once the scraper has been built, every way out of [main] goes through
    the disconnection: it is the last request made, whatever the requests,
    the scrape and the exports did and whatever kind of exception they
    raised. *)
Lemma main_disconnects_when_configured
    (cfg : Config) (env : Env) (args : Args) (w : World) (s : Scraper) :
  TelegramFileScraper cfg = Ok s ->
  exists cs, calls (snd (main cfg env args w)) = cs ++ [CallDisconnect].
Proof.
  intros Hcfg. unfold main. rewrite Hcfg.
  destruct (main_body cfg env args (s, print_world [PrintBanner] w))
    as [r [s1 w1]].
  assert (Hgen : forall (r' : result unit) (w2 : World),
             exists cs,
               calls (snd (match close env (s1, w2) with
                           | (Ok _, (s', w')) => (r', Some s', w')
                           | (Raise e, (s', w')) => (Raise e, Some s', w')
                           end)) = cs ++ [CallDisconnect]).
  { intros r' w2. pose proof (close_calls env s1 w2) as [Hc _].
    destruct (close env (s1, w2)) as [[u|e] [s' w']]; simpl in *;
      now exists (calls w2). }
  destruct r as [u|e]; [apply Hgen|].
  destruct (is_Exception e); apply Hgen.
Qed.

(** C2.  With the constants left by a failed import of [config], the
    constructor raises before [scraper] is bound: [main] prints the error
    and the trace, then fails in its [finally] clause on the unbound
    variable.  No request is made to the client, so no disconnection
    takes place, and [main] ends with that second exception. *)
Theorem main_unconfigured_no_disconnect (env : Env) (args : Args) (w : World) :
  main unconfigured env args w =
  (Raise (UnboundLocalError "scraper"),
   None,
   {| console :=
        console w ++
        [PrintBanner;
         PrintError
           (ValueError "API credentials not configured. Check config.py");
         PrintTraceback
           (ValueError "API credentials not configured. Check config.py")];
      calls := calls w;
      written := written w |}).
Proof.
  unfold main, print_world. simpl. now rewrite <- app_assoc.
Qed.

(** ** The path of the JSON report *)

(** X21.  An output name without dot before its [.csv] ending gets the
    ending [.json] in its place. *)
Lemma json_output_path_csv (base : string) :
  no_dot base = true ->
  json_output_path (base ++ ".csv") = (base ++ ".json")%string.
Proof.
  unfold json_output_path, PyStr.replace.
  induction base as [|c base IH]; [reflexivity|].
  cbn [no_dot]. rewrite andb_true_iff, negb_true_iff. intros [Hc Hb].
  change (String c base ++ ".csv")%string with (String c (base ++ ".csv")).
  assert (Hp : String.prefix ".csv" (String c (base ++ ".csv")) = false).
  { cbn [String.prefix].
    destruct (Ascii.ascii_dec "." c) as [<-|Hne]; [discriminate | reflexivity]. }
  cbn [PyStr.replace_from]. rewrite Hp, (IH Hb). reflexivity.
Qed.

Lemma json_output_path_csv_witness :
  json_output_path "scraped_files.csv" = "scraped_files.json"%string.
Proof.
  apply (json_output_path_csv "scraped_files"). reflexivity.
Defined.

(** C8.  The path of the JSON report is the output path with every
    [.csv] in it replaced.  An output path without [.csv] is therefore
    kept as it is: with [--output results.txt --json] the JSON report is
    written to [results.txt], over the CSV report written just before,
    and no [results.json] appears.  A [.csv] inside a directory name is
    replaced as well. *)
Theorem json_path_is_text_replacement :
  json_output_path "results.txt" = "results.txt"%string /\
  json_output_path "results" = "results"%string /\
  json_output_path "data.csv.d/out.csv" = "data.json.d/out.json"%string /\
  (let '(r, _, w') :=
     main example_config (quiet_env [document_message 42 "a.zip" 2048])
          (args_with_json "results.txt") empty_world in
   r = Ok tt /\
   map fst (written w') = ["results.txt"%string; "results.txt"%string] /\
   (exists rows,
      file_at "results.txt" (written w') = Some (JsonContent rows)) /\
   file_at "results.json" (written w') = None).
Proof.
  split; [reflexivity|]. split; [reflexivity|]. split; [reflexivity|].
  vm_compute. repeat split. eexists. reflexivity.
Qed.

(** * Further properties of the code *)

(** ** The classifier *)

Lemma lower_idem (s : string) : PyStr.lower (PyStr.lower s) = PyStr.lower s.
Proof. apply lower_fix, has_upper_lower. Qed.

(** X1.  The answer of [is_target_file] depends on the file name only
    through its lower-cased form: two names that differ in the case of
    their letters get the same answer, for every extension set. *)
Theorem is_target_file_case_insensitive
    (n1 n2 : string) (file_types : option (list string)) :
  PyStr.lower n1 = PyStr.lower n2 ->
  is_target_file (PyStr n1) file_types = is_target_file (PyStr n2) file_types.
Proof.
  intros H.
  destruct (String.eqb_spec n1 "") as [->|H1].
  - destruct n2; [reflexivity | discriminate].
  - destruct (String.eqb_spec n2 "") as [->|H2].
    + destruct n1; [contradiction | discriminate].
    + now rewrite !is_target_file_nonempty, H by assumption.
Qed.

Lemma is_target_file_case_insensitive_witness :
  is_target_file (PyStr "Robot.Ex4") None = is_target_file (PyStr "ROBOT.EX4") None.
Proof.
  apply (is_target_file_case_insensitive "Robot.Ex4" "ROBOT.EX4" None).
  reflexivity.
Defined.

(** X2.  An explicit empty extension list is not replaced by the default
    list: it rejects every file name.  A list that holds the empty text
    accepts every non-empty file name. *)
Theorem is_target_file_degenerate_lists :
  (forall filename, is_target_file filename (Some []) = false) /\
  (forall name file_types,
     name <> "" -> In ""%string file_types ->
     is_target_file (PyStr name) (Some file_types) = true).
Proof.
  split.
  - intros [|name]; [reflexivity|]. simpl. now destruct (name =? "")%string.
  - intros name file_types Hne Hin.
    apply (is_target_file_true_iff (PyStr name) (Some file_types)).
    exists name, ""%string, (PyStr.lower name). repeat split; try assumption.
    clear. induction (PyStr.lower name) as [|c r IH]; simpl; congruence.
Qed.

Lemma is_target_file_degenerate_lists_witness :
  is_target_file (PyStr "notes") (Some [".zip"; ""]) = true.
Proof.
  apply (proj2 is_target_file_degenerate_lists "notes" [".zip"; ""]).
  - discriminate.
  - simpl. auto.
Defined.

(** X3.  Accepting under the union of two extension lists is accepting
    under one of them, so adding extensions to a list never turns an
    accepted file name into a rejected one. *)
Theorem is_target_file_union :
  (forall filename l1 l2,
     is_target_file filename (Some (l1 ++ l2)%list) =
     is_target_file filename (Some l1) || is_target_file filename (Some l2)) /\
  (forall filename l1 l2,
     incl l1 l2 ->
     is_target_file filename (Some l1) = true ->
     is_target_file filename (Some l2) = true).
Proof.
  split.
  - intros [|name] l1 l2; [reflexivity|].
    destruct (String.eqb_spec name "") as [->|Hne]; [reflexivity|].
    rewrite !is_target_file_nonempty by assumption. apply existsb_app.
  - intros filename l1 l2 Hincl H.
    apply (is_target_file_true_iff filename (Some l1)) in H.
    destruct H as (name & ext & p & -> & Hne & Hin & Hp).
    apply (is_target_file_true_iff (PyStr name) (Some l2)).
    exists name, ext, p. repeat split; auto.
Qed.

Lemma is_target_file_union_witness :
  is_target_file (PyStr "a.rar") (Some [".zip"; ".rar"; ".7z"]) = true.
Proof.
  apply (proj2 is_target_file_union (PyStr "a.rar") [".rar"] [".zip"; ".rar"; ".7z"]).
  - intros x [<-|[]]. simpl. auto.
  - reflexivity.
Defined.

(** ** Sender names *)

(** X5.  When the sender is missing, or has no [first_name] attribute, or
    has one that holds a non-empty text, [_get_sender_name] returns a
    non-empty text. *)
Theorem get_sender_name_truthy (message : Telethon.Message) :
  match Telethon.sender message with
  | None => True
  | Some s =>
      match Telethon.first_name s with
      | None => True
      | Some first => truthy first = true
      end
  end ->
  truthy (_get_sender_name message) = true.
Proof.
  unfold _get_sender_name.
  destruct (Telethon.sender message) as [s|]; [|reflexivity].
  destruct (Telethon.first_name s) as [first|].
  - intros Hf. destruct (Telethon.last_name s) as [last|]; [|exact Hf].
    destruct (truthy last); [|exact Hf].
    destruct first as [|f]; [discriminate|]. simpl in *.
    destruct f; [discriminate | reflexivity].
  - intros _. destruct (Telethon.username s) as [user|]; [|reflexivity].
    destruct (truthy user); reflexivity.
Qed.

Lemma get_sender_name_truthy_witness :
  truthy (_get_sender_name
            (message_from (Some {| Telethon.first_name := Some (PyStr "Ann");
                                   Telethon.last_name := Some PyNone;
                                   Telethon.username := None |}))) = true.
Proof.
  apply (get_sender_name_truthy
           (message_from (Some {| Telethon.first_name := Some (PyStr "Ann");
                                  Telethon.last_name := Some PyNone;
                                  Telethon.username := None |}))).
  reflexivity.
Defined.

(** ** The scraping loop *)

(** The effect of one message does not depend on the state it is run
    in: it appends its own records and adds their number to the counter. *)
Lemma scrape_message_frame
    (g : GroupId) (file_types : option (list string))
    (message : Telethon.Message) (count : nat) (self : Scraper) (w : World) :
  fst (scrape_message g file_types message count (self, w)) =
    (if document_missing message then Raise (AttributeError "attributes")
     else Ok (count + List.length (records_of_message g file_types message))) /\
  files (fst (snd (scrape_message g file_types message count (self, w)))) =
    files self ++ records_of_message g file_types message /\
  written (snd (snd (scrape_message g file_types message count (self, w)))) =
    written w /\
  calls (snd (snd (scrape_message g file_types message count (self, w)))) =
    calls w.
Proof.
  unfold records_of_message, document_missing, scrape_message.
  destruct (Telethon.media message) as [[[doc|]|]|]; simpl;
    try (rewrite ?Nat.add_0_r, ?app_nil_r; repeat split; reflexivity).
  unfold bind, getattr, ret. simpl.
  match goal with
  | |- context [match ?f with PyNone => _ | PyStr _ => _ end] =>
      destruct f as [|name]
  end; simpl;
    try (rewrite ?Nat.add_0_r, ?app_nil_r; repeat split; reflexivity).
  match goal with
  | |- context [if ?c then _ else _] => destruct c
  end; simpl;
    rewrite ?Nat.add_0_r, ?app_nil_r; repeat split; reflexivity.
Qed.

(** The run of the loop, message by message. *)
Lemma scrape_messages_run
    (g : GroupId) (file_types : option (list string))
    (messages : list Telethon.Message) (count : nat)
    (self : Scraper) (w : World) :
  exists k,
    k <= List.length messages /\
    files (fst (snd (scrape_messages g file_types messages count (self, w)))) =
      files self ++
      flat_map (records_of_message g file_types) (firstn k messages) /\
    (forall c,
       fst (scrape_messages g file_types messages count (self, w)) = Ok c ->
       k = List.length messages /\
       c = count +
           List.length (flat_map (records_of_message g file_types) messages)).
Proof.
  revert count self w.
  induction messages as [|m rest IH]; intros count self w.
  - exists 0. simpl. rewrite app_nil_r, Nat.add_0_r.
    repeat split; [lia | congruence].
  - cbn [scrape_messages]. unfold bind.
    destruct (scrape_message_frame g file_types m count self w)
      as (Hr & Hf & _ & _).
    destruct (scrape_message g file_types m count (self, w))
      as [[count'|e] [self1 w1]]; simpl in Hr, Hf.
    + destruct (IH count' self1 w1) as (k & Hk & Hfiles & Hok).
      exists (S k). split; [simpl; lia|]. split.
      * rewrite Hfiles, Hf. simpl. now rewrite app_assoc.
      * intros c Hc. destruct (Hok c Hc) as [-> ->].
        split; [reflexivity|].
        destruct (document_missing m); [discriminate|].
        injection Hr as ->. simpl. rewrite List.length_app. lia.
    + exists 1. split; [simpl; lia|]. split.
      * simpl. now rewrite Hf, app_nil_r.
      * simpl. discriminate.
Qed.

(** X6.  The loop over the messages appends, in the order of the stream,
    the records of each message it has gone through, whatever the scraper
    held before; it goes through all the messages when it ends normally,
    and the counter it returns has grown by the number of records added. *)
Theorem scrape_messages_stream_order
    (g : GroupId) (file_types : option (list string))
    (messages : list Telethon.Message) (count : nat)
    (self : Scraper) (w : World) :
  exists k,
    k <= List.length messages /\
    files (fst (snd (scrape_messages g file_types messages count (self, w)))) =
      files self ++
      flat_map (records_of_message g file_types) (firstn k messages) /\
    (forall c,
       fst (scrape_messages g file_types messages count (self, w)) = Ok c ->
       k = List.length messages /\
       c = count +
           List.length (flat_map (records_of_message g file_types) messages)).
Proof. exact (scrape_messages_run g file_types messages count self w). Qed.

Lemma scrape_messages_stream_order_witness :
  fst (scrape_messages (GroupStr "mychannel") None
         [document_message 9 "a.zip" 10; message_from None;
          document_message 7 "b.pdf" 10] 0
         ({| files := [] |}, empty_world)) =
  Ok (0 + List.length
            (flat_map (records_of_message (GroupStr "mychannel") None)
               [document_message 9 "a.zip" 10; message_from None;
                document_message 7 "b.pdf" 10])).
Proof.
  destruct (scrape_messages_stream_order (GroupStr "mychannel") None
              [document_message 9 "a.zip" 10; message_from None;
               document_message 7 "b.pdf" 10] 0
              {| files := [] |} empty_world) as (k & _ & _ & Hok).
  destruct (Hok 2 eq_refl) as [_ Hc].
  rewrite <- Hc. reflexivity.
Defined.

Lemma scrape_messages_effects
    (g : GroupId) (file_types : option (list string))
    (messages : list Telethon.Message) :
  forall (count : nat) (self : Scraper) (w : World),
    written (snd (snd (scrape_messages g file_types messages count (self, w)))) =
      written w /\
    calls (snd (snd (scrape_messages g file_types messages count (self, w)))) =
      calls w.
Proof.
  induction messages as [|m rest IH]; intros count self w; [now split|].
  cbn [scrape_messages]. unfold bind.
  destruct (scrape_message_frame g file_types m count self w)
    as (_ & _ & Hw & Hc).
  destruct (scrape_message g file_types m count (self, w))
    as [[count'|e] [self1 w1]]; simpl in Hw, Hc.
  - destruct (IH count' self1 w1) as [Hw' Hc']. split; congruence.
  - simpl. now split.
Qed.

(** What a run of [scrape_group] leaves: the records of some of the
    messages, appended in order; no file written; and, when it returns
    normally, as last line either the number of records it added or the
    report of the failed resolution. *)
Lemma scrape_group_new_records
    (env : Env) (g : GroupId) (limit : Z) (file_types : option (list string))
    (self : Scraper) (w : World) :
  exists messages,
    files (fst (snd (scrape_group env g limit file_types (self, w)))) =
      files self ++ flat_map (records_of_message g file_types) messages /\
    written (snd (snd (scrape_group env g limit file_types (self, w)))) =
      written w /\
    (fst (scrape_group env g limit file_types (self, w)) = Ok tt ->
     last (console (snd (snd (scrape_group env g limit file_types (self, w)))))
          PrintBanner =
       PrintFound (List.length
                     (flat_map (records_of_message g file_types) messages)) \/
     (messages = [] /\
      exists e,
        last (console (snd (snd (scrape_group env g limit file_types (self, w)))))
             PrintBanner = PrintErrorGettingGroup e)).
Proof.
  unfold scrape_group, bind, try_except, print, call, answer, raise, ret.
  simpl.
  destruct (get_entity_outcome env g) as [entity|e]; simpl.
  - destruct (Telethon.title entity) as [t|]; simpl.
    + destruct (iter_messages_outcome env entity limit) as [messages failure].
      match goal with
      | |- context [scrape_messages g file_types messages 0 (?s, ?w0)] =>
          destruct (scrape_messages_run g file_types messages 0 s w0)
            as (k & Hk & Hfiles & Hok);
          destruct (scrape_messages_effects g file_types messages 0 s w0)
            as [Hw _];
          destruct (scrape_messages g file_types messages 0 (s, w0))
            as [[count|e] [self1 w1]]
      end; simpl in *.
      * destruct (Hok count eq_refl) as [-> ->].
        rewrite firstn_all in Hfiles.
        exists messages. destruct failure as [e|]; simpl.
        -- repeat split; [exact Hfiles | exact Hw | discriminate].
        -- repeat split; [exact Hfiles | exact Hw|].
           intros _. left. now rewrite last_last.
      * exists (firstn k messages).
        repeat split; [exact Hfiles | exact Hw | discriminate].
    + exists []. simpl. rewrite app_nil_r. repeat split.
      intros _. right. split; [reflexivity|].
      exists (AttributeError "title"). now rewrite last_last.
  - destruct (is_Exception e); simpl.
    + exists []. simpl. rewrite app_nil_r. repeat split.
      intros _. right. split; [reflexivity|].
      exists e. now rewrite last_last.
    + exists []. simpl. rewrite app_nil_r. repeat split. discriminate.
Qed.

(** X7.  When [scrape_group] returns normally, its last line either
    reports the failed resolution, and then no record was added, or is
    "Found n files" where [n] is the number of records this call added,
    not the number of records the scraper holds. *)
Theorem scrape_group_found_count
    (env : Env) (g : GroupId) (limit : Z) (file_types : option (list string))
    (self : Scraper) (w : World) :
  fst (scrape_group env g limit file_types (self, w)) = Ok tt ->
  exists new,
    files (fst (snd (scrape_group env g limit file_types (self, w)))) =
      files self ++ new /\
    (last (console (snd (snd (scrape_group env g limit file_types (self, w)))))
          PrintBanner = PrintFound (List.length new) \/
     (new = [] /\
      exists e,
        last (console (snd (snd (scrape_group env g limit file_types (self, w)))))
             PrintBanner = PrintErrorGettingGroup e)).
Proof.
  intros Hok.
  destruct (scrape_group_new_records env g limit file_types self w)
    as (messages & Hfiles & _ & Hlast).
  exists (flat_map (records_of_message g file_types) messages).
  split; [exact Hfiles|].
  destruct (Hlast Hok) as [H | [-> H]]; [now left | now right].
Qed.

Lemma scrape_group_found_count_witness :
  exists new,
    files (fst (snd (scrape_group
                       (quiet_env [document_message 9 "a.zip" 10])
                       (GroupStr "mychannel") 100 None
                       ({| files := [sample_record 1 "old.zip" 5] |},
                        empty_world)))) =
      [sample_record 1 "old.zip" 5] ++ new /\
    List.length new = 1.
Proof.
  destruct (scrape_group_found_count
              (quiet_env [document_message 9 "a.zip" 10])
              (GroupStr "mychannel") 100 None
              {| files := [sample_record 1 "old.zip" 5] |} empty_world
              eq_refl) as (new & Hfiles & Hlast).
  exists new. split; [exact Hfiles|].
  destruct Hlast as [H | [_ [e H]]]; [|discriminate].
  now injection H.
Defined.

Lemma take_length_le (n : nat) (s : string) :
  String.length (PyStr.take n s) <= n.
Proof.
  revert s; induction n as [|n IH]; intros s; simpl; [lia|].
  destruct s as [|c s]; simpl; [lia | specialize (IH s); lia].
Qed.

(** A record of a message comes from its document, under a non-empty
    file name that the classifier accepts. *)
Lemma records_of_message_inv
    (g : GroupId) (file_types : option (list string))
    (message : Telethon.Message) (r : FileInfo) :
  In r (records_of_message g file_types message) ->
  exists doc,
    Telethon.media message = Some (Telethon.MessageMediaDocument (Some doc)) /\
    r = make_file_info g message doc (filename r) /\
    filename r <> ""%string /\
    is_target_file (PyStr (filename r)) file_types = true.
Proof.
  unfold records_of_message, scrape_message.
  destruct (Telethon.media message) as [[[doc|]|]|];
    cbn [getattr bind ret fst snd files]; try contradiction.
  unfold bind, getattr, ret.
  match goal with
  | |- context [match ?f with PyNone => _ | PyStr _ => _ end] =>
      destruct f as [|name]
  end; cbn [fst snd files]; try contradiction.
  destruct (truthy (PyStr name) && is_target_file (PyStr name) file_types)
    eqn:E; cbn [fst snd files]; try contradiction.
  unfold append_file, print. cbn [fst snd files app].
  intros [<-|[]]. apply andb_true_iff in E. destruct E as [Hne Hacc].
  exists doc. cbn [filename make_file_info]. repeat split; try assumption.
  simpl in Hne. apply negb_true_iff, String.eqb_neq in Hne. exact Hne.
Qed.

(** X8.  Every record that [scrape_group] adds has a non-empty file name
    that [is_target_file] accepts for the extension set of the call, and a
    caption of at most 500 characters. *)
Theorem scrape_group_records_accepted
    (env : Env) (g : GroupId) (limit : Z) (file_types : option (list string))
    (self : Scraper) (w : World) :
  exists new,
    files (fst (snd (scrape_group env g limit file_types (self, w)))) =
      files self ++ new /\
    Forall (fun r =>
              filename r <> ""%string /\
              is_target_file (PyStr (filename r)) file_types = true /\
              String.length (caption r) <= 500) new.
Proof.
  destruct (scrape_group_new_records env g limit file_types self w)
    as (messages & Hfiles & _ & _).
  exists (flat_map (records_of_message g file_types) messages).
  split; [exact Hfiles|].
  apply Forall_forall. intros r Hr.
  apply in_flat_map in Hr. destruct Hr as (m & _ & Hr).
  destruct (records_of_message_inv g file_types m r Hr)
    as (doc & _ & Heq & Hne & Hacc).
  repeat split; try assumption.
  rewrite Heq. cbn [caption make_file_info]. apply take_length_le.
Qed.

(** The records a loop adds do not depend on what the scraper holds. *)
Lemma scrape_messages_frame
    (g : GroupId) (file_types : option (list string))
    (messages : list Telethon.Message) :
  exists new,
    forall (count : nat) (self : Scraper) (w : World),
      files (fst (snd (scrape_messages g file_types messages count (self, w)))) =
        files self ++ new.
Proof.
  induction messages as [|m rest [new IH]].
  - exists []. intros count self w. simpl. now rewrite app_nil_r.
  - destruct (document_missing m) eqn:Hm.
    + exists (records_of_message g file_types m). intros count self w.
      cbn [scrape_messages]. unfold bind.
      destruct (scrape_message_frame g file_types m count self w)
        as (Hr & Hf & _ & _). rewrite Hm in Hr.
      destruct (scrape_message g file_types m count (self, w))
        as [[count'|e] [self1 w1]]; simpl in Hr, Hf; [discriminate|].
      exact Hf.
    + exists (records_of_message g file_types m ++ new). intros count self w.
      cbn [scrape_messages]. unfold bind.
      destruct (scrape_message_frame g file_types m count self w)
        as (Hr & Hf & _ & _). rewrite Hm in Hr.
      destruct (scrape_message g file_types m count (self, w))
        as [[count'|e] [self1 w1]]; simpl in Hr, Hf; [|discriminate].
      now rewrite IH, Hf, app_assoc.
Qed.

(** X9.  The records a call of [scrape_group] adds are fixed by the
    answers of the client and by the arguments: they are the same whatever
    the scraper already holds.  Nothing is removed and nothing is compared
    with earlier records, so a second call with the same answers appends
    the same records once more. *)
Theorem scrape_group_accumulates
    (env : Env) (g : GroupId) (limit : Z) (file_types : option (list string)) :
  exists new,
    (forall (self : Scraper) (w : World),
       files (fst (snd (scrape_group env g limit file_types (self, w)))) =
         files self ++ new) /\
    (forall (self : Scraper) (w : World),
       files (fst (snd (scrape_group env g limit file_types
                          (snd (scrape_group env g limit file_types
                                  (self, w)))))) =
         files self ++ new ++ new).
Proof.
  assert (H : exists new, forall (self : Scraper) (w : World),
               files (fst (snd (scrape_group env g limit file_types (self, w)))) =
                 files self ++ new).
  { unfold scrape_group, bind, try_except, print, call, answer, raise, ret.
    simpl.
    destruct (get_entity_outcome env g) as [entity|e]; simpl.
    - destruct (Telethon.title entity) as [t|]; simpl.
      + destruct (iter_messages_outcome env entity limit) as [messages failure].
        destruct (scrape_messages_frame g file_types messages) as [new Hnew].
        exists new. intros self w.
        match goal with
        | |- context [scrape_messages g file_types messages 0 (?s, ?w0)] =>
            specialize (Hnew 0 s w0);
            destruct (scrape_messages g file_types messages 0 (s, w0))
              as [[count|e] [self1 w1]]
        end; simpl in *; [|exact Hnew].
        destruct failure; simpl; exact Hnew.
      + exists []. intros self w. simpl. now rewrite app_nil_r.
    - exists []. intros self w.
      destruct (is_Exception e); simpl; now rewrite app_nil_r. }
  destruct H as [new Hnew]. exists new. split; [exact Hnew|].
  intros self w.
  destruct (scrape_group env g limit file_types (self, w)) as [r [s1 w1]] eqn:E.
  simpl. rewrite Hnew.
  pose proof (Hnew self w) as H1. rewrite E in H1. simpl in H1.
  now rewrite H1, app_assoc.
Qed.

(** X10.  Which file name a document message is recorded under.  The
    first file-name attribute decides, and a later one is never looked at;
    when it gives a non-empty name, the [name] of the document is not
    consulted.  When it gives none, or an empty one, the [name] of the
    document is used if there is one, and a message that has neither, or
    that carries no document, adds no record and raises nothing. *)
Theorem filename_resolution
    (g : GroupId) (file_types : option (list string))
    (message : Telethon.Message) :
  (forall pre v rest,
     Forall (fun a => a = Telethon.DocumentAttributeOther) pre ->
     filename_of_attributes
       (pre ++ Telethon.DocumentAttributeFilename v :: rest) = v) /\
  (forall doc n,
     Telethon.media message =
       Some (Telethon.MessageMediaDocument (Some doc)) ->
     filename_of_attributes (Telethon.attributes doc) = PyStr n ->
     n <> ""%string ->
     records_of_message g file_types message =
       if is_target_file (PyStr n) file_types
       then [make_file_info g message doc n] else []) /\
  (forall doc n,
     Telethon.media message =
       Some (Telethon.MessageMediaDocument (Some doc)) ->
     truthy (filename_of_attributes (Telethon.attributes doc)) = false ->
     Telethon.name doc = Some (PyStr n) ->
     records_of_message g file_types message =
       if is_target_file (PyStr n) file_types
       then [make_file_info g message doc n] else []) /\
  (forall doc,
     Telethon.media message =
       Some (Telethon.MessageMediaDocument (Some doc)) ->
     truthy (filename_of_attributes (Telethon.attributes doc)) = false ->
     Telethon.name doc = None \/ Telethon.name doc = Some PyNone ->
     records_of_message g file_types message = []) /\
  (Telethon.media message = None \/
   Telethon.media message = Some Telethon.MessageMediaOther ->
   records_of_message g file_types message = [] /\
   document_missing message = false).
Proof.
  split; [|split; [|split; [|split]]].
  - intros pre v rest Hpre. induction Hpre as [|a pre -> _ IH]; [reflexivity|].
    exact IH.
  - intros doc n Hm Hf Hn.
    unfold records_of_message, scrape_message. rewrite Hm.
    unfold bind, getattr, ret. cbn [fst snd]. rewrite Hf.
    assert (Ht : truthy (PyStr n) = true).
    { simpl. now apply negb_true_iff, String.eqb_neq. }
    repeat (rewrite Ht; cbn [negb andb]).
    now destruct (is_target_file (PyStr n) file_types).
  - intros doc n Hm Hf Hname.
    unfold records_of_message, scrape_message. rewrite Hm.
    unfold bind, getattr, ret. cbn [fst snd]. rewrite Hf, Hname.
    cbn [negb].
    destruct (String.eqb_spec n "") as [->|Hn]; [reflexivity|].
    assert (Ht : truthy (PyStr n) = true).
    { simpl. now apply negb_true_iff, String.eqb_neq. }
    rewrite Ht. cbn [andb].
    now destruct (is_target_file (PyStr n) file_types).
  - intros doc Hm Hf Hname.
    unfold records_of_message, scrape_message. rewrite Hm.
    unfold bind, getattr, ret. cbn [fst snd]. rewrite Hf. cbn [negb].
    destruct Hname as [-> | ->]; [|reflexivity].
    destruct (filename_of_attributes (Telethon.attributes doc)) as [|n];
      [reflexivity|].
    simpl in Hf. apply negb_false_iff, String.eqb_eq in Hf. now subst n.
  - unfold records_of_message, scrape_message, document_missing.
    intros [-> | ->]; split; reflexivity.
Qed.

Lemma filename_resolution_witness :
  records_of_message (GroupStr "mychannel") None
    {| Telethon.media :=
         Some (Telethon.MessageMediaDocument
                 (Some {| Telethon.attributes :=
                            [Telethon.DocumentAttributeFilename (PyStr "");
                             Telethon.DocumentAttributeFilename (PyStr "a.zip")];
                          Telethon.name := None;
                          Telethon.size := None |}));
       Telethon.id := 5%Z;
       Telethon.date := None;
       Telethon.sender := None;
       Telethon.text := None |} = [] /\
  filename_of_attributes
    ([Telethon.DocumentAttributeOther] ++
     Telethon.DocumentAttributeFilename (PyStr "b.zip") ::
     [Telethon.DocumentAttributeFilename (PyStr "c.zip")]) = PyStr "b.zip".
Proof.
  split.
  - eapply (proj1 (proj2 (proj2 (proj2 (filename_resolution
              (GroupStr "mychannel") None _))))).
    + reflexivity.
    + reflexivity.
    + left. reflexivity.
  - apply (proj1 (filename_resolution (GroupStr "mychannel") None
                    (message_from None))).
    repeat constructor.
Defined.

(** ** The size in megabytes *)

(** X11.  For a document of [n] bytes, [n] from 0 to below 2^53, the size
    recorded in hundredths of a megabyte is within half a hundredth of
    [n / 1048576] and is not negative; it is 0 for an empty document and
    never decreases when the size grows within that range. *)
Theorem round_mb_hundredths_nearest :
  (forall n,
     (0 <= n < 2 ^ 53)%Z ->
     (Z.abs (round_mb_hundredths n * 1048576 - n * 100) <= 524288)%Z /\
     (0 <= round_mb_hundredths n)%Z) /\
  round_mb_hundredths 0 = 0%Z /\
  (forall a b,
     (0 <= a)%Z -> (a <= b)%Z -> (b < 2 ^ 53)%Z ->
     (round_mb_hundredths a <= round_mb_hundredths b)%Z).
Proof.
  assert (Hnear : forall n,
             (Z.abs (round_mb_hundredths n * 1048576 - n * 100) <= 524288)%Z).
  { intros n. unfold round_mb_hundredths.
    pose proof (Z.div_mod (n * 100) 1048576 ltac:(lia)) as Hdm.
    pose proof (Z.mod_pos_bound (n * 100) 1048576 ltac:(lia)) as Hb.
    destruct (Z.ltb_spec (2 * ((n * 100) mod 1048576)) 1048576); [lia|].
    destruct (Z.ltb_spec 1048576 (2 * ((n * 100) mod 1048576))); [lia|].
    destruct (Z.even (n * 100 / 1048576)); lia. }
  split; [|split; [reflexivity|]].
  - intros n [Hn _]. split; [apply Hnear|].
    pose proof (Hnear n). lia.
  - intros a b _ Hab _.
    destruct (Z.eq_dec a b) as [->|Hne]; [lia|].
    pose proof (Hnear a). pose proof (Hnear b). lia.
Qed.

Lemma round_mb_hundredths_nearest_witness :
  (round_mb_hundredths 5242 <= round_mb_hundredths 5243)%Z /\
  (0 <= round_mb_hundredths 4294967296)%Z.
Proof.
  split.
  - apply (proj2 (proj2 round_mb_hundredths_nearest) 5242%Z 5243%Z); lia.
  - apply (proj1 round_mb_hundredths_nearest 4294967296%Z). lia.
Defined.

(** ** The exporters and the summary, continued *)

(** X12.  With records to write and a path that cannot be opened, each
    exporter raises the error of [open] to its caller; nothing is written
    or printed and the list of files is left as it was. *)
Theorem export_open_failure
    (env : Env) (path : string) (self : Scraper) (w : World) (e : exn) :
  files self <> [] ->
  open_outcome env path = Some e ->
  export_csv env path (self, w) = (Raise e, (self, w)) /\
  export_json env path (self, w) = (Raise e, (self, w)).
Proof.
  intros Hne Hopen. destruct self as [fs]. simpl in Hne.
  unfold export_csv, export_json, bind, get_files. simpl.
  destruct fs as [|f fs]; [contradiction|].
  rewrite Hopen. split; reflexivity.
Qed.

Lemma export_open_failure_witness :
  export_csv (readonly_env [] (OSError "read-only file system")) "out.csv"
    ({| files := [sample_record 1 "a.zip" 5] |}, empty_world) =
  (Raise (OSError "read-only file system"),
   ({| files := [sample_record 1 "a.zip" 5] |}, empty_world)).
Proof.
  apply (export_open_failure
           (readonly_env [] (OSError "read-only file system")) "out.csv"
           {| files := [sample_record 1 "a.zip" 5] |} empty_world
           (OSError "read-only file system")).
  - discriminate.
  - reflexivity.
Defined.

Section Dictionary.

(** The count held for [e], 0 when [e] is not a key. *)
Local Abbreviation held d e :=
  (match dict_get e d with Some n => n | None => 0 end).

Lemma dict_get_incr (k e : string) (d : list (string * nat)) :
  held (dict_incr k d) e = held d e + (if (k =? e)%string then 1 else 0).
Proof.
  induction d as [|[k' n] r IH]; simpl.
  - destruct (k =? e)%string; reflexivity.
  - destruct (String.eqb_spec k' k) as [->|Hk]; simpl.
    + destruct (k =? e)%string; lia.
    + destruct (String.eqb_spec k' e) as [->|He].
      * destruct (String.eqb_spec k e); [congruence | lia].
      * exact IH.
Qed.

Lemma dict_incr_positive (k : string) (d : list (string * nat)) :
  Forall (fun p => 0 < snd p) d -> Forall (fun p => 0 < snd p) (dict_incr k d).
Proof.
  induction 1 as [|[k' n] r Hn Hr IH]; simpl.
  - repeat constructor.
  - destruct (k' =? k)%string; constructor; simpl in *; auto; lia.
Qed.

Lemma dict_incr_keys (k : string) (d : list (string * nat)) :
  NoDup (map fst d) -> NoDup (map fst (dict_incr k d)) /\
  forall x, In x (map fst (dict_incr k d)) <-> x = k \/ In x (map fst d).
Proof.
  induction d as [|[k' n] r IH]; simpl; intros Hnd.
  - split; [repeat constructor; auto | intuition].
  - inversion Hnd as [|? ? Hnotin Hr]; subst.
    destruct (IH Hr) as [IH1 IH2].
    destruct (String.eqb_spec k' k) as [->|Hk]; simpl.
    + split; [exact Hnd | intuition].
    + split.
      * constructor; [|exact IH1]. rewrite IH2. intros [->|H]; auto.
      * intros x. rewrite IH2. intuition.
Qed.

Lemma dict_incr_sum (k : string) (d : list (string * nat)) :
  list_sum (map snd (dict_incr k d)) = list_sum (map snd d) + 1.
Proof.
  induction d as [|[k' n] r IH]; simpl; [reflexivity|].
  destruct (k' =? k)%string; simpl; lia.
Qed.

Lemma dict_get_in (e : string) (n : nat) (d : list (string * nat)) :
  dict_get e d = Some n -> In (e, n) d.
Proof.
  induction d as [|[k' m] r IH]; simpl; [discriminate|].
  destruct (String.eqb_spec k' e) as [->|He].
  - intros H. injection H as ->. now left.
  - intros H. right. now apply IH.
Qed.

Lemma in_dict_get (e : string) (n : nat) (d : list (string * nat)) :
  NoDup (map fst d) -> In (e, n) d -> dict_get e d = Some n.
Proof.
  induction d as [|[k' m] r IH]; simpl; [contradiction|].
  intros Hnd [H|H].
  - injection H as -> ->. now rewrite String.eqb_refl.
  - inversion Hnd as [|? ? Hnotin Hr]; subst.
    destruct (String.eqb_spec k' e) as [->|He]; [|now apply IH].
    exfalso. apply Hnotin. apply (in_map fst) in H. exact H.
Qed.

(** The state of the dictionary after the counting loop, started from [d]. *)
Lemma count_loop (fs : list FileInfo) :
  forall d,
    Forall (fun p => 0 < snd p) d -> NoDup (map fst d) ->
    let d' := fold_left (fun d f => dict_incr (extension_of f) d) fs d in
    Forall (fun p => 0 < snd p) d' /\ NoDup (map fst d') /\
    list_sum (map snd d') = list_sum (map snd d) + List.length fs /\
    forall e,
      held d' e =
      held d e +
      List.length (filter (fun f => (extension_of f =? e)%string) fs).
Proof.
  induction fs as [|f fs IH]; intros d Hpos Hnd; simpl.
  - repeat split; auto.
  - destruct (IH (dict_incr (extension_of f) d)
                (dict_incr_positive _ d Hpos)
                (proj1 (dict_incr_keys (extension_of f) d Hnd)))
      as (H1 & H2 & H3 & H4).
    repeat split; auto.
    + rewrite H3, dict_incr_sum. lia.
    + intros e. rewrite H4, dict_get_incr.
      destruct (extension_of f =? e)%string; simpl; lia.
Qed.

End Dictionary.

(** The dictionary built by the counting loop. *)
Lemma count_extensions_table (fs : list FileInfo) :
  NoDup (map fst (count_extensions fs)) /\
  list_sum (map snd (count_extensions fs)) = List.length fs /\
  (forall e n,
     In (e, n) (count_extensions fs) <->
     0 < n /\
     n = List.length (filter (fun f => (extension_of f =? e)%string) fs)).
Proof.
  destruct (count_loop fs [] ltac:(constructor) ltac:(constructor))
    as (Hpos & Hnd & Hsum & Hget).
  change (fold_left (fun d f => dict_incr (extension_of f) d) fs [])
    with (count_extensions fs) in *.
  split; [exact Hnd|]. split; [exact Hsum|].
  intros e n. specialize (Hget e). simpl in Hget. split.
  - intros Hin. split.
    + rewrite Forall_forall in Hpos. exact (Hpos (e, n) Hin).
    + rewrite (in_dict_get e n _ Hnd Hin) in Hget. exact Hget.
  - intros [Hn ->].
    destruct (dict_get e (count_extensions fs)) as [m|] eqn:E.
    + rewrite <- Hget. now apply dict_get_in.
    + lia.
Qed.

(** X13.  After the counting loop of [print_summary], the dictionary
    holds each extension once, with the number of files that have it,
    which is at least 1; an extension no file has is not a key; and the
    counts add up to the number of files. *)
Theorem count_extensions_counts (fs : list FileInfo) :
  NoDup (map fst (count_extensions fs)) /\
  list_sum (map snd (count_extensions fs)) = List.length fs /\
  (forall e n,
     In (e, n) (count_extensions fs) <->
     0 < n /\
     n = List.length (filter (fun f => (extension_of f =? e)%string) fs)).
Proof. exact (count_extensions_table fs). Qed.

Lemma count_extensions_counts_witness :
  In (".zip"%string, 2)
     (count_extensions [sample_record 1 "a.zip" 5; sample_record 2 "notes" 1;
                        sample_record 3 "B.ZIP" 7]).
Proof.
  apply (proj2 (proj2 (proj2 (count_extensions_counts
           [sample_record 1 "a.zip" 5; sample_record 2 "notes" 1;
            sample_record 3 "B.ZIP" 7])) ".zip"%string 2)).
  split; [lia | reflexivity].
Defined.

Lemma enumerate_combine {A : Type} (l : list A) :
  forall i, enumerate i l = combine (seq i (List.length l)) l.
Proof.
  induction l as [|x l IH]; intros i; simpl; [reflexivity|].
  now rewrite IH.
Qed.

(** X14.  For a scraper with files, [print_summary] prints the header,
    the number of files, a total, then at most ten "By Extension" lines
    in descending order of count, each with the number of files of that
    extension and the label "no extension" for the empty one, then the
    top files numbered from 1, then the footer. *)
Theorem print_summary_lines (self : Scraper) (w : World) :
  files self <> [] ->
  exists exts total,
    console (snd (snd (print_summary (self, w)))) =
      console w ++
      [PrintSummaryHeader; PrintTotalFiles (List.length (files self));
       PrintTotalSize total; PrintByExtension] ++
      map (fun '(ext, count) =>
             PrintExtension (if (ext =? "")%string then "no extension"%string
                             else ext) count) exts ++
      [PrintTopHeader] ++
      map (fun '(i, f) => PrintTopFile i (filename f) (file_size_mb f))
          (combine (seq 1 (List.length (sorted_files (files self))))
                   (sorted_files (files self))) ++
      [PrintSummaryFooter] /\
    List.length exts <= 10 /\
    StronglySorted (fun a b => snd b <= snd a) exts /\
    Forall (fun '(e, n) =>
              0 < n /\
              n = List.length
                    (filter (fun f => (extension_of f =? e)%string)
                            (files self))) exts.
Proof.
  destruct self as [fs]. destruct w as [c cl wr]. simpl. intros Hne.
  destruct fs as [|f fs]; [contradiction|].
  exists (firstn 10 (sorted_desc (fun x : string * nat => Z.of_nat (snd x))
                       (count_extensions (f :: fs)))).
  exists (total_size (f :: fs)).
  split; [|split; [|split]].
  - unfold print_summary, bind, get_files, print, print_all, ret.
    cbn [files console calls written fst snd].
    rewrite enumerate_combine.
    repeat rewrite <- app_assoc. reflexivity.
  - apply firstn_le_length.
  - pose proof (sorted_firstn _ (fun x : string * nat => Z.of_nat (snd x)) 10 _
                  (sorted_desc_sorted _ (fun x : string * nat => Z.of_nat (snd x))
                     (count_extensions (f :: fs)))) as Hs.
    clear -Hs. induction Hs as [|x l Hl IH Hx]; constructor; [exact IH|].
    eapply Forall_impl; [|exact Hx]. intros y Hy. simpl in Hy. lia.
  - apply Forall_forall. intros [e n] Hin.
    apply in_firstn in Hin.
    apply (Permutation_in _ (Permutation_sym (sorted_desc_perm _ _ _))) in Hin.
    now apply (proj1 (proj2 (proj2 (count_extensions_table (f :: fs))) e n)).
Qed.

Lemma print_summary_lines_witness :
  exists exts,
    List.length exts <= 10 /\
    Forall (fun '(e, n) =>
              0 < n /\
              n = List.length
                    (filter (fun f => (extension_of f =? e)%string)
                            [sample_record 1 "a.zip" 5;
                             sample_record 2 "notes" 1])) exts.
Proof.
  destruct (print_summary_lines
              {| files := [sample_record 1 "a.zip" 5;
                           sample_record 2 "notes" 1] |} empty_world
              ltac:(discriminate)) as (exts & total & _ & Hlen & _ & Hall).
  exists exts. split; [exact Hlen | exact Hall].
Defined.

(** ** The driver, continued *)

(** The requests and the frame of [connect]. *)
Lemma connect_effect
    (cfg : Config) (env : Env) (self : Scraper) (w : World) :
  fst (snd (connect cfg env (self, w))) = self /\
  written (snd (snd (connect cfg env (self, w)))) = written w /\
  calls (snd (snd (connect cfg env (self, w)))) =
    calls w ++
    CallConnect ::
    match connect_outcome env with
    | Some _ => []
    | None =>
        CallIsUserAuthorized ::
        match is_user_authorized_outcome env with
        | Ok false => [CallStart (PHONE_NUMBER cfg)]
        | _ => []
        end
    end.
Proof.
  unfold connect, bind, print, call, outcome, answer, raise, ret. simpl.
  destruct (connect_outcome env) as [e|]; simpl; [now repeat split|].
  destruct (is_user_authorized_outcome env) as [[|]|e]; simpl;
    try (repeat split; rewrite <- ?app_assoc; reflexivity).
  destruct (start_outcome env); simpl;
    repeat split; rewrite <- ?app_assoc; reflexivity.
Qed.

(** X15.  [connect] asks for the connection first, asks whether the user
    is authorized only once connected, and starts the login with the
    configured phone number only when the answer is no.  It leaves the
    scraper and the files on disk alone. *)
Theorem connect_requests
    (cfg : Config) (env : Env) (self : Scraper) (w : World) :
  fst (snd (connect cfg env (self, w))) = self /\
  written (snd (snd (connect cfg env (self, w)))) = written w /\
  calls (snd (snd (connect cfg env (self, w)))) =
    calls w ++
    CallConnect ::
    match connect_outcome env with
    | Some _ => []
    | None =>
        CallIsUserAuthorized ::
        match is_user_authorized_outcome env with
        | Ok false => [CallStart (PHONE_NUMBER cfg)]
        | _ => []
        end
    end.
Proof. exact (connect_effect cfg env self w). Qed.

(** X17.  With the credentials configured and a disconnection that
    succeeds, [main] never ends with an exception derived from
    [Exception]: whatever fails during the connection, the scrape or the
    exports is caught and printed, and only an interruption goes through. *)
Theorem main_swallows_exceptions
    (cfg : Config) (env : Env) (args : Args) (w : World) (s : Scraper) :
  TelegramFileScraper cfg = Ok s ->
  disconnect_outcome env = None ->
  match fst (fst (main cfg env args w)) with
  | Ok _ => True
  | Raise e => is_Exception e = false
  end.
Proof.
  intros Hcfg Hdis. unfold main. rewrite Hcfg.
  destruct (main_body cfg env args (s, print_world [PrintBanner] w))
    as [r [s1 w1]].
  unfold close, bind, call, outcome, print, raise, ret. rewrite Hdis.
  destruct r as [u|e]; simpl; [exact I|].
  destruct (is_Exception e) eqn:E; simpl; [exact I | exact E].
Qed.

Lemma main_swallows_exceptions_witness :
  match fst (fst (main example_config
                    (readonly_env [document_message 9 "a.zip" 10]
                                  (OSError "read-only file system"))
                    (args_with_json "out.csv") empty_world)) with
  | Ok _ => True
  | Raise e => is_Exception e = false
  end.
Proof.
  apply (main_swallows_exceptions example_config
           (readonly_env [document_message 9 "a.zip" 10]
                         (OSError "read-only file system"))
           (args_with_json "out.csv") empty_world {| files := [] |}).
  - reflexivity.
  - reflexivity.
Defined.

(** The exporters leave the scraper alone; they write one file, or none
    when there is no record or the file cannot be opened. *)
Lemma export_csv_effect (env : Env) (path : string) (self : Scraper) (w : World) :
  fst (snd (export_csv env path (self, w))) = self /\
  (files self = [] /\
   fst (export_csv env path (self, w)) = Ok tt /\
   written (snd (snd (export_csv env path (self, w)))) = written w \/
   files self <> [] /\
   (exists e, fst (export_csv env path (self, w)) = Raise e) /\
   written (snd (snd (export_csv env path (self, w)))) = written w \/
   files self <> [] /\
   fst (export_csv env path (self, w)) = Ok tt /\
   written (snd (snd (export_csv env path (self, w)))) =
     written w ++ [(path, CsvContent csv_fieldnames (files self))]).
Proof.
  destruct self as [fs]. unfold export_csv, bind, get_files. simpl.
  destruct fs as [|f fs]; simpl; [auto|].
  destruct (open_outcome env path) as [e|]; simpl.
  - split; [reflexivity|]. right. left.
    repeat split; [discriminate | now exists e].
  - split; [reflexivity|]. right. right. repeat split. discriminate.
Qed.

Lemma export_json_effect (env : Env) (path : string) (self : Scraper) (w : World) :
  fst (snd (export_json env path (self, w))) = self /\
  (files self = [] /\
   fst (export_json env path (self, w)) = Ok tt /\
   written (snd (snd (export_json env path (self, w)))) = written w \/
   files self <> [] /\
   (exists e, fst (export_json env path (self, w)) = Raise e) /\
   written (snd (snd (export_json env path (self, w)))) = written w \/
   files self <> [] /\
   fst (export_json env path (self, w)) = Ok tt /\
   written (snd (snd (export_json env path (self, w)))) =
     written w ++ [(path, JsonContent (files self))]).
Proof.
  destruct self as [fs]. unfold export_json, bind, get_files. simpl.
  destruct fs as [|f fs]; simpl; [auto|].
  destruct (open_outcome env path) as [e|]; simpl.
  - split; [reflexivity|]. right. left.
    repeat split; [discriminate | now exists e].
  - split; [reflexivity|]. right. right. repeat split. discriminate.
Qed.

(** The files written by the statements of the [try] block. *)
Lemma main_body_written
    (cfg : Config) (env : Env) (args : Args) (s : Scraper) (w : World) :
  exists new,
    written (snd (snd (main_body cfg env args (s, w)))) = written w ++ new /\
    let fs := files (fst (snd (main_body cfg env args (s, w)))) in
    (new = [] \/
     new = [(output args, CsvContent csv_fieldnames fs)] \/
     json args = true /\
     new = [(output args, CsvContent csv_fieldnames fs);
            (json_output_path (output args), JsonContent fs)]).
Proof.
  unfold main_body, bind.
  destruct (connect_effect cfg env s w) as (Hs1 & Hw1 & _).
  destruct (connect cfg env (s, w)) as [[u1|e1] [s1 w1]]; simpl in Hs1, Hw1;
    [|exists []; simpl; rewrite app_nil_r; auto].
  destruct (scrape_group_new_records env (GroupStr (group args)) (limit args)
              (types args) s1 w1) as (msgs & _ & Hw2 & _).
  destruct (scrape_group env (GroupStr (group args)) (limit args) (types args)
              (s1, w1)) as [[u2|e2] [s2 w2]]; simpl in Hw2;
    [|exists []; simpl; rewrite app_nil_r; split; [congruence | auto]].
  destruct (export_csv_effect env (output args) s2 w2) as (Hs3 & Hw3).
  destruct (export_csv env (output args) (s2, w2)) as [[u3|e3] [s3 w3]];
    simpl in Hs3, Hw3; subst s3.
  - destruct (json args) eqn:Hj.
    + destruct (export_json_effect env (json_output_path (output args)) s2 w3)
        as (Hs4 & Hw4).
      destruct (export_json env (json_output_path (output args)) (s2, w3))
        as [[u4|e4] [s4 w4]]; simpl in Hs4, Hw4; subst s4.
      * destruct (print_summary_effect s2 w4) as (out & -> & _). simpl.
        destruct Hw3 as [(He3 & _ & Hw3) | [(_ & [e He] & _) | (Hn3 & _ & Hw3)]];
          try discriminate;
          destruct Hw4 as [(He4 & _ & Hw4) | [(_ & [e He] & _) | (Hn4 & _ & Hw4)]];
          try discriminate; try contradiction;
          rewrite Hw4, Hw3, Hw2, Hw1.
        -- exists []. rewrite app_nil_r. auto.
        -- rewrite <- app_assoc. eexists. split; [reflexivity|].
           right. right. auto.
      * simpl.
        destruct Hw3 as [(He3 & _ & Hw3) | [(_ & [e He] & _) | (Hn3 & _ & Hw3)]];
          try discriminate;
          destruct Hw4 as [(He4 & Hr & _) | [(Hn4 & _ & Hw4) | (_ & Hr & _)]];
          try discriminate; try contradiction;
          rewrite Hw4, Hw3, Hw2, Hw1.
        eexists. split; [reflexivity|]. auto.
    + unfold ret. destruct (print_summary_effect s2 w3) as (out & -> & _).
      simpl.
      destruct Hw3 as [(_ & _ & Hw3) | [(_ & [e He] & _) | (_ & _ & Hw3)]];
        try discriminate; rewrite Hw3, Hw2, Hw1.
      * exists []. rewrite app_nil_r. auto.
      * eexists. split; [reflexivity|]. auto.
  - simpl.
    destruct Hw3 as [(_ & Hr & _) | [(_ & _ & Hw3) | (_ & Hr & _)]];
      try discriminate.
    exists []. rewrite app_nil_r. split; [congruence | auto].
Qed.

Lemma close_effect (env : Env) (self : Scraper) (w : World) :
  fst (snd (close env (self, w))) = self /\
  written (snd (snd (close env (self, w)))) = written w.
Proof.
  unfold close, bind, call, outcome, print, raise, ret. simpl.
  destruct (disconnect_outcome env); simpl; now split.
Qed.

(** [main] after the [try] block: the handler and the [finally] clause
    write no file and keep the scraper. *)
Lemma main_after_body
    (cfg : Config) (env : Env) (args : Args) (w : World) (s : Scraper) :
  TelegramFileScraper cfg = Ok s ->
  snd (fst (main cfg env args w)) =
    Some (fst (snd (main_body cfg env args (s, print_world [PrintBanner] w)))) /\
  written (snd (main cfg env args w)) =
    written (snd (snd (main_body cfg env args
                         (s, print_world [PrintBanner] w)))).
Proof.
  intros Hcfg. unfold main. rewrite Hcfg.
  destruct (main_body cfg env args (s, print_world [PrintBanner] w))
    as [r [s1 w1]]. cbn [fst snd].
  assert (Hgen : forall (r' : result unit) (w2 : World),
             written w2 = written w1 ->
             snd (fst (match close env (s1, w2) with
                       | (Ok _, (s', w')) => (r', Some s', w')
                       | (Raise e, (s', w')) => (Raise e, Some s', w')
                       end)) = Some s1 /\
             written (snd (match close env (s1, w2) with
                           | (Ok _, (s', w')) => (r', Some s', w')
                           | (Raise e, (s', w')) => (Raise e, Some s', w')
                           end)) = written w1).
  { intros r' w2 Hw2. destruct (close_effect env s1 w2) as [Hs Hw].
    destruct (close env (s1, w2)) as [[u|e] [s' w']]; simpl in *;
      subst s'; split; congruence. }
  destruct r as [u|e]; [now apply Hgen|].
  destruct (is_Exception e); now apply Hgen.
Qed.

(** X18.  With the credentials configured, a run of [main] writes nothing,
    or the CSV report at the output path, or, with [--json], the CSV
    report and then the JSON report at the path derived from it, and never
    anything else.  Each report holds exactly the records the scraper
    holds at the end, in the same order. *)
Theorem main_writes
    (cfg : Config) (env : Env) (args : Args) (w : World) (s : Scraper) :
  TelegramFileScraper cfg = Ok s ->
  exists s' new,
    snd (fst (main cfg env args w)) = Some s' /\
    written (snd (main cfg env args w)) = written w ++ new /\
    (new = [] \/
     new = [(output args, CsvContent csv_fieldnames (files s'))] \/
     json args = true /\
     new = [(output args, CsvContent csv_fieldnames (files s'));
            (json_output_path (output args), JsonContent (files s'))]).
Proof.
  intros Hcfg.
  destruct (main_after_body cfg env args w s Hcfg) as [Hs Hw].
  destruct (main_body_written cfg env args s (print_world [PrintBanner] w))
    as (new & Hnew & Hcases).
  exists (fst (snd (main_body cfg env args (s, print_world [PrintBanner] w)))),
         new.
  split; [exact Hs|]. split; [now rewrite Hw, Hnew | exact Hcases].
Qed.

Lemma main_writes_witness :
  exists s' new,
    snd (fst (main example_config
                (quiet_env [document_message 9 "a.zip" 10; message_from None])
                (args_with_json "out.csv") empty_world)) = Some s' /\
    written (snd (main example_config
                    (quiet_env [document_message 9 "a.zip" 10; message_from None])
                    (args_with_json "out.csv") empty_world)) = [] ++ new /\
    (new = [] \/
     new = [("out.csv"%string, CsvContent csv_fieldnames (files s'))] \/
     true = true /\
     new = [("out.csv"%string, CsvContent csv_fieldnames (files s'));
            (json_output_path "out.csv", JsonContent (files s'))]).
Proof.
  apply (main_writes example_config
           (quiet_env [document_message 9 "a.zip" 10; message_from None])
           (args_with_json "out.csv") empty_world {| files := [] |}).
  reflexivity.
Defined.

(** X19.  When the group resolves but the iteration over its messages
    fails, [main] exports
    nothing: no file is written, whatever records had been collected
    before the failure, and the disconnection is still the last request. *)
Theorem main_iteration_failure
    (cfg : Config) (env : Env) (args : Args) (w : World) (s : Scraper)
    (entity : Telethon.Entity) (t : pyval)
    (messages : list Telethon.Message) (e : exn) :
  TelegramFileScraper cfg = Ok s ->
  get_entity_outcome env (GroupStr (group args)) = Ok entity ->
  Telethon.title entity = Some t ->
  iter_messages_outcome env entity (limit args) = (messages, Some e) ->
  written (snd (main cfg env args w)) = written w /\
  exists cs, calls (snd (main cfg env args w)) = cs ++ [CallDisconnect].
Proof.
  intros Hcfg Hent Htitle Hiter.
  split; [|now apply (main_disconnects_when_configured cfg env args w s)].
  destruct (main_after_body cfg env args w s Hcfg) as [_ ->].
  unfold main_body, bind.
  destruct (connect_effect cfg env s (print_world [PrintBanner] w))
    as (_ & Hw1 & _).
  destruct (connect cfg env (s, print_world [PrintBanner] w))
    as [[u1|e1] [s1 w1]]; simpl in Hw1; [|exact Hw1].
  destruct (scrape_group_new_records env (GroupStr (group args)) (limit args)
              (types args) s1 w1) as (msgs & _ & Hw2 & _).
  assert (Hraise : exists e', fst (scrape_group env (GroupStr (group args))
                                     (limit args) (types args) (s1, w1)) =
                               Raise e').
  { unfold scrape_group, bind, try_except, print, call, answer, raise, ret.
    simpl. rewrite Hent. simpl. rewrite Htitle. simpl. rewrite Hiter.
    match goal with
    | |- context [scrape_messages ?a ?b ?c ?d ?st] =>
        destruct (scrape_messages a b c d st) as [[count|e'] [s2 w2]]
    end; simpl; eauto. }
  destruct Hraise as [e' Hraise].
  destruct (scrape_group env (GroupStr (group args)) (limit args) (types args)
              (s1, w1)) as [[u2|e2] [s2 w2]]; simpl in *; [discriminate|].
  congruence.
Qed.

Lemma main_iteration_failure_witness :
  written (snd (main example_config
                  (interrupted_env [document_message 9 "a.zip" 10]
                                   (RPCError "flood wait"))
                  (args_with_json "out.csv") empty_world)) = [] /\
  option_map files
    (snd (fst (main example_config
                 (interrupted_env [document_message 9 "a.zip" 10]
                                  (RPCError "flood wait"))
                 (args_with_json "out.csv") empty_world))) =
  Some [make_file_info (GroupStr "mychannel") (document_message 9 "a.zip" 10)
          {| Telethon.attributes :=
               [Telethon.DocumentAttributeOther;
                Telethon.DocumentAttributeFilename (PyStr "a.zip")];
             Telethon.name := None;
             Telethon.size := Some 10%Z |} "a.zip"].
Proof.
  split.
  - apply (main_iteration_failure example_config
             (interrupted_env [document_message 9 "a.zip" 10]
                              (RPCError "flood wait"))
             (args_with_json "out.csv") empty_world {| files := [] |}
             {| Telethon.title := Some (PyStr "Channel") |} (PyStr "Channel")
             [document_message 9 "a.zip" 10] (RPCError "flood wait")).
    + reflexivity.
    + reflexivity.
    + reflexivity.
    + reflexivity.
  - reflexivity.
Defined.

(** X20.  When the group cannot be resolved, [main] goes on after the
    report of the error: with the connection made and the user authorized,
    it prints the warning of each exporter, writes no file, prints no
    summary, disconnects and ends normally. *)
Theorem main_resolution_failure
    (cfg : Config) (env : Env) (args : Args) (w : World) (s : Scraper)
    (e : exn) :
  TelegramFileScraper cfg = Ok s ->
  connect_outcome env = None ->
  is_user_authorized_outcome env = Ok true ->
  get_entity_outcome env (GroupStr (group args)) = Raise e ->
  is_Exception e = true ->
  disconnect_outcome env = None ->
  main cfg env args w =
  (Ok tt,
   Some {| files := [] |},
   {| console :=
        console w ++
        [PrintBanner; PrintConnecting; PrintConnected;
         PrintScraping (GroupStr (group args)); PrintScanning (limit args);
         PrintErrorGettingGroup e; PrintNoFiles] ++
        (if json args then [PrintNoFiles] else []) ++ [PrintDisconnected];
      calls := calls w ++
               [CallConnect; CallIsUserAuthorized;
                CallGetEntity (GroupStr (group args)); CallDisconnect];
      written := written w |}).
Proof.
  intros Hcfg Hcon Hauth Hent Hexc Hdis.
  assert (Hs : s = {| files := [] |}).
  { unfold TelegramFileScraper in Hcfg.
    destruct (_ || _); [discriminate | now injection Hcfg]. }
  subst s.
  unfold main, main_body. rewrite Hcfg.
  unfold bind at 1. unfold connect, bind, print, call, outcome, answer, raise,
    ret. cbn [fst snd]. rewrite Hcon, Hauth. cbn.
  unfold scrape_group, bind, try_except, print, call, answer, raise, ret.
  cbn. rewrite Hent. cbn. rewrite Hexc. cbn.
  unfold close, bind, call, outcome, print, raise, ret.
  destruct (json args); cbn; rewrite Hdis; cbn;
    repeat rewrite <- app_assoc; reflexivity.
Qed.

Lemma main_resolution_failure_witness :
  fst (fst (main example_config (unresolved_env (ValueError "no such group"))
              (args_with_json "out.csv") empty_world)) = Ok tt.
Proof.
  rewrite (main_resolution_failure example_config
             (unresolved_env (ValueError "no such group"))
             (args_with_json "out.csv") empty_world {| files := [] |}
             (ValueError "no such group")
             eq_refl eq_refl eq_refl eq_refl eq_refl eq_refl).
  reflexivity.
Defined.

(** ** Message links *)

Lemma str_of_int_inj (a b : Z) : PyStr.str_of_int a = PyStr.str_of_int b -> a = b.
Proof.
  assert (Hnn : forall z, Z.to_int z <> Decimal.Pos Decimal.Nil /\
                          Z.to_int z <> Decimal.Neg Decimal.Nil).
  { intros [|p|p]; simpl; split; try discriminate;
      intros H; injection H as H;
      exact (DecimalPos.Unsigned.to_uint_nonnil p H). }
  unfold PyStr.str_of_int. intros H.
  apply (f_equal NilZero.int_of_string) in H.
  rewrite !NilZero.isi in H by apply Hnn. injection H as H.
  apply (f_equal Z.of_int) in H.
  now rewrite !DecimalZ.of_to in H.
Qed.

Lemma append_inv_head (p x y : string) :
  (p ++ x)%string = (p ++ y)%string -> x = y.
Proof.
  induction p as [|c p IH]; simpl; intros H; [exact H|].
  injection H as H. now apply IH.
Qed.

(** X22.  For one group identifier, two different message ids never get
    the same [message_url]: the link, or the bare number, tells the
    messages of a group apart. *)
Theorem message_url_injective (g : GroupId) (a b : Z) :
  make_message_url g a = make_message_url g b -> a = b.
Proof.
  unfold make_message_url. destruct g as [s|n].
  - destruct (negb (PyStr.startswith s "http")).
    + intros H. apply str_of_int_inj.
      apply (append_inv_head "/"), (append_inv_head s),
            (append_inv_head "https://t.me/").
      exact H.
    + apply str_of_int_inj.
  - apply str_of_int_inj.
Qed.

Lemma message_url_injective_witness : 42%Z = 42%Z.
Proof.
  apply (message_url_injective (GroupStr "mychannel") 42 42). reflexivity.
Defined.

(** ** The order of the requests *)

Lemma scrape_group_calls
    (env : Env) (g : GroupId) (limit : Z) (file_types : option (list string))
    (self : Scraper) (w : World) :
  exists l,
    calls (snd (snd (scrape_group env g limit file_types (self, w)))) =
      calls w ++ CallGetEntity g :: l /\
    (l = [] \/ l = [CallIterMessages limit]).
Proof.
  unfold scrape_group, bind, try_except, print, call, answer, raise, ret.
  simpl.
  destruct (get_entity_outcome env g) as [entity|e]; simpl.
  - destruct (Telethon.title entity) as [t|]; simpl; [|exists []; auto].
    destruct (iter_messages_outcome env entity limit) as [messages failure].
    match goal with
    | |- context [scrape_messages g file_types messages 0 (?s, ?w0)] =>
        destruct (scrape_messages_effects g file_types messages 0 s w0)
          as [_ Hc];
        destruct (scrape_messages g file_types messages 0 (s, w0))
          as [[count|e] [self1 w1]]
    end; simpl in *; exists [CallIterMessages limit].
    + destruct failure; simpl; rewrite Hc, <- app_assoc; auto.
    + rewrite Hc, <- app_assoc; auto.
  - destruct (is_Exception e); simpl; exists []; auto.
Qed.

Lemma export_calls (env : Env) (path : string) (self : Scraper) (w : World) :
  calls (snd (snd (export_csv env path (self, w)))) = calls w /\
  calls (snd (snd (export_json env path (self, w)))) = calls w.
Proof.
  destruct self as [fs]. unfold export_csv, export_json, bind, get_files.
  simpl. destruct fs as [|f fs]; simpl; [now split|].
  destruct (open_outcome env path); simpl; now split.
Qed.

Lemma main_body_calls
    (cfg : Config) (env : Env) (args : Args) (s : Scraper) (w : World) :
  exists rest,
    calls (snd (snd (main_body cfg env args (s, w)))) =
      calls w ++ CallConnect :: rest /\
    Forall (fun c => c <> CallConnect /\ c <> CallDisconnect) rest.
Proof.
  unfold main_body, bind.
  destruct (connect_effect cfg env s w) as (_ & _ & Hc1).
  assert (Hrest1 : Forall (fun c => c <> CallConnect /\ c <> CallDisconnect)
            match connect_outcome env with
            | Some _ => []
            | None =>
                CallIsUserAuthorized ::
                match is_user_authorized_outcome env with
                | Ok false => [CallStart (PHONE_NUMBER cfg)]
                | _ => []
                end
            end).
  { destruct (connect_outcome env); [constructor|].
    destruct (is_user_authorized_outcome env) as [[|]|];
      repeat constructor; discriminate. }
  destruct (connect cfg env (s, w)) as [[u1|e1] [s1 w1]]; simpl in Hc1;
    [|eexists; split; [exact Hc1 | exact Hrest1]].
  destruct (scrape_group_calls env (GroupStr (group args)) (limit args)
              (types args) s1 w1) as (l & Hc2 & Hl).
  assert (Hrest2 : Forall (fun c => c <> CallConnect /\ c <> CallDisconnect)
                     (CallGetEntity (GroupStr (group args)) :: l)).
  { destruct Hl as [-> | ->]; repeat constructor; discriminate. }
  assert (Hall : exists rest,
             calls w1 ++ CallGetEntity (GroupStr (group args)) :: l =
               calls w ++ CallConnect :: rest /\
             Forall (fun c => c <> CallConnect /\ c <> CallDisconnect) rest).
  { eexists. split.
    - rewrite Hc1, <- app_assoc. cbn [app]. reflexivity.
    - apply Forall_app. split; [exact Hrest1 | exact Hrest2]. }
  rewrite <- Hc2 in Hall. clear Hc1 Hc2 Hrest1 Hrest2 Hl.
  destruct (scrape_group env (GroupStr (group args)) (limit args) (types args)
              (s1, w1)) as [[u2|e2] [s2 w2]]; simpl in Hall; [|exact Hall].
  destruct (export_calls env (output args) s2 w2) as [Hc3 _].
  destruct (export_csv_effect env (output args) s2 w2) as (Hs3 & _).
  destruct (export_csv env (output args) (s2, w2)) as [[u3|e3] [s3 w3]];
    simpl in Hc3, Hs3; [|simpl; now rewrite Hc3].
  destruct (json args).
  - destruct (export_calls env (json_output_path (output args)) s3 w3)
      as [_ Hc4].
    destruct (export_json env (json_output_path (output args)) (s3, w3))
      as [[u4|e4] [s4 w4]]; simpl in Hc4; [|simpl; now rewrite Hc4, Hc3].
    destruct (print_summary_effect s4 w4) as (out & -> & _). simpl.
    now rewrite Hc4, Hc3.
  - unfold ret. destruct (print_summary_effect s3 w3) as (out & -> & _).
    simpl. now rewrite Hc3.
Qed.

(** X16.  With the credentials configured, every run of [main] asks for
    the connection first and once, and for the disconnection last and
    once, whatever happens in between and whatever exception ends the
    run. *)
Theorem main_request_order
    (cfg : Config) (env : Env) (args : Args) (w : World) (s : Scraper) :
  TelegramFileScraper cfg = Ok s ->
  exists rest,
    calls (snd (main cfg env args w)) =
      calls w ++ CallConnect :: rest ++ [CallDisconnect] /\
    Forall (fun c => c <> CallConnect /\ c <> CallDisconnect) rest.
Proof.
  intros Hcfg. unfold main. rewrite Hcfg.
  destruct (main_body_calls cfg env args s (print_world [PrintBanner] w))
    as (rest & Hc & Hrest).
  exists rest. split; [|exact Hrest].
  destruct (main_body cfg env args (s, print_world [PrintBanner] w))
    as [r [s1 w1]]. cbn [fst snd] in *.
  assert (Hgen : forall (r' : result unit) (w2 : World),
             calls w2 = calls w1 ->
             calls (snd (match close env (s1, w2) with
                         | (Ok _, (s', w')) => (r', Some s', w')
                         | (Raise e, (s', w')) => (Raise e, Some s', w')
                         end)) =
             calls w ++ CallConnect :: rest ++ [CallDisconnect]).
  { intros r' w2 Hw2. destruct (close_calls env s1 w2) as [Hcl _].
    destruct (close env (s1, w2)) as [[u|e] [s' w']]; simpl in *;
      rewrite Hcl, Hw2, Hc; simpl; now rewrite <- app_assoc. }
  destruct r as [u|e]; [now apply Hgen|].
  destruct (is_Exception e); now apply Hgen.
Qed.

Lemma main_request_order_witness :
  exists rest,
    calls (snd (main example_config
                  (interrupted_env [document_message 9 "a.zip" 10]
                                   KeyboardInterrupt)
                  (args_with_json "out.csv") empty_world)) =
      [] ++ CallConnect :: rest ++ [CallDisconnect] /\
    Forall (fun c => c <> CallConnect /\ c <> CallDisconnect) rest.
Proof.
  apply (main_request_order example_config
           (interrupted_env [document_message 9 "a.zip" 10] KeyboardInterrupt)
           (args_with_json "out.csv") empty_world {| files := [] |}).
  reflexivity.
Defined.

(** ** Allow-list entries and the lowering of the file name *)






(** The letter U+2102 as written in a source text. *)
Example double_struck_capital_c_text : double_struck_capital_c = "ℂ"%string.
Proof. reflexivity. Qed.



